(** * inseq: [AttributionModel.attribute] and its resolution helpers

    A shallow embedding of [inseq/models/attribution_model.py].  The
    class wraps a sequence-generation model and orchestrates feature
    attribution.  The fields the orchestration reads and writes are kept
    in a record, the method bodies are written in a small monad that
    threads this record, carries Python exceptions and records the calls
    made to the collaborators (tokenizer, generation backend, attribution
    method, logger).  An exception keeps the mutations made before it was
    raised, exactly as in Python. *)

From Stdlib Require Import ZArith String List Bool Lia.
From stdpp Require Import base option strings gmap list.

Local Open Scope string_scope.
Local Open Scope Z_scope.
Local Open Scope list_scope.

(** ** Text arguments *)

(** [TextInput]: one text or a list of texts. *)
Inductive TextInput :=
| Text (s : string)
| Texts (l : list string).

(** Truthiness of a string and of a text argument ([if not input_texts]). *)
Definition str_truthy (s : string) : bool := bool_decide (s <> "").

Definition text_truthy (t : TextInput) : bool :=
  match t with
  | Text s => str_truthy s
  | Texts l => match l with [] => false | _ :: _ => true end
  end.

(** Truthiness of an [Optional[str]]. *)
Definition opt_truthy (o : option string) : bool :=
  match o with
  | Some s => str_truthy s
  | None => false
  end.

(** [o is not None]. *)
Definition not_None {A} (o : option A) : bool :=
  match o with
  | Some _ => true
  | None => false
  end.

(** [[t] if isinstance(t, str) else t]. *)
Definition as_list (t : TextInput) : list string :=
  match t with
  | Text s => [s]
  | Texts l => l
  end.

(** [t[idx]]: on a list the element, on a string the one-character string;
    [None] stands for [IndexError]. *)
Definition getitem (t : TextInput) (idx : nat) : option string :=
  match t with
  | Text s => match String.get idx s with
              | Some c => Some (String c EmptyString)
              | None => None
              end
  | Texts l => l !! idx
  end.

(** ** Exceptions *)

Inductive exn :=
| ValueError (msg : string)
| LengthMismatchError (n_texts n_reference : nat)
| MissingAttributionMethodError
| AssertionError (msg : string)
| AttributeError (msg : string)
| IndexError
| ZeroDivisionError
| External (what : string).
(** [External] is an exception raised inside a collaborator (device check,
    tokenizer, generation backend, attribution method); it is propagated
    unchanged. *)

Inductive result (A : Type) :=
| Return (a : A)
| Raise (e : exn).
Arguments Return {A} a.
Arguments Raise {A} e.

Definition is_Return {A} (r : result A) : bool :=
  match r with Return _ => true | Raise _ => false end.

(** The error of line 229. *)
Definition empty_input_error : exn :=
  ValueError "At least one text must be provided to perform attribution.".

(** Outcome of a collaborator call. *)
Definition throws (A : Type) : Type := string + A.

(** ** [format_input_texts] *)

(** Modelled from the spec: [inseq.utils.misc.format_input_texts] is imported
    by the class but its module is not part of the sources.  The spec (4.1,
    step 4) says: normalize input/target text arguments into parallel
    sequences of equal length (single string promoted to a length-1
    sequence); mismatched lengths fail with a length-mismatch error. *)
Definition format_input_texts (texts : TextInput) (ref_texts : option TextInput)
  : result (list string * option (list string)) :=
  let texts := as_list texts in
  match ref_texts with
  | None => Return (texts, None)
  | Some r =>
      let reference_texts := as_list r in
      if Nat.eqb (length texts) (length reference_texts)
      then Return (texts, Some reference_texts)
      else Raise (LengthMismatchError (length texts) (length reference_texts))
  end.

(** [all(generated_texts[idx].startswith(input_texts[idx]) for idx in
    range(len(input_texts)))], from index [idx] on: [all] stops at the first
    false element, an index out of range raises before that. *)
Fixpoint all_startswith (generated_texts : TextInput) (idx : nat)
    (input_texts : list string) : result bool :=
  match input_texts with
  | [] => Return true
  | x :: rest =>
      match getitem generated_texts idx with
      | None => Raise IndexError
      | Some g =>
          if String.prefix x g
          then all_startswith generated_texts (S idx) rest
          else Return false
      end
  end.

(** [len(input_texts) // batch_size + ((len(input_texts) % batch_size) > 0)];
    Python's floor division and modulo agree with [Z.div] and [Z.modulo]. *)
Definition n_batches (len batch_size : Z) : Z :=
  len / batch_size + (if 0 <? len mod batch_size then 1 else 0).

(** ** The class, its collaborators and the monad of its methods *)

Section AttributionModel.

(** Opaque Python values: [Any] in keyword arguments, step functions
    (callables), attribution methods, batch encodings, the per-batch
    outputs of an attribution method and the merged attribution content. *)
Context {PyAny StepFn FeatureAttribution BatchEncoding StepOutputs Attributions : Type}.

(** The fields of [AttributionModel] set in [__init__]; [model] is the
    truth value of the wrapped model reference. *)
Record AttributionModel := {
  model : bool;
  is_encoder_decoder : bool;
  _device : option string;
  attribution_method : option FeatureAttribution;
  _default_attributed_fn_id : string;
}.

Definition set_device (d : option string) (self : AttributionModel) : AttributionModel :=
  {| model := model self;
     is_encoder_decoder := is_encoder_decoder self;
     _device := d;
     attribution_method := attribution_method self;
     _default_attributed_fn_id := _default_attributed_fn_id self |}.

Definition set_attribution_method (fa : option FeatureAttribution)
    (self : AttributionModel) : AttributionModel :=
  {| model := model self;
     is_encoder_decoder := is_encoder_decoder self;
     _device := _device self;
     attribution_method := fa;
     _default_attributed_fn_id := _default_attributed_fn_id self |}.

Definition set_default_attributed_fn_id (fn : string)
    (self : AttributionModel) : AttributionModel :=
  {| model := model self;
     is_encoder_decoder := is_encoder_decoder self;
     _device := _device self;
     attribution_method := attribution_method self;
     _default_attributed_fn_id := fn |}.

(** [attributed_fn]: a registry key or a callable. *)
Inductive AttributedFn :=
| FnKey (key : string)
| FnCallable (f : StepFn).

(** Values stored in [FeatureAttributionOutput.info]. *)
Inductive InfoVal :=
| InfoTexts (l : list string)
| InfoArgs (d : gmap string PyAny)
| InfoBool (b : bool)
| InfoAny (v : PyAny).

Record FeatureAttributionOutput := {
  attributions : Attributions;
  info : gmap string InfoVal;
}.

Definition info_set (k : string) (v : InfoVal) (o : FeatureAttributionOutput)
  : FeatureAttributionOutput :=
  {| attributions := attributions o; info := <[k := v]> (info o) |}.

(** The parameters of [attribute]. *)
Record AttributeArgs := {
  input_texts : TextInput;
  generated_texts : option TextInput;
  method : option string;
  override_default_attribution : bool;
  attr_pos_start : option Z;
  attr_pos_end : option Z;
  show_progress : bool;
  pretty_progress : bool;
  output_step_attributions : bool;
  attribute_target : bool;
  step_scores : list string;
  include_eos_baseline : bool;
  attributed_fn : option AttributedFn;
  device : option string;
  batch_size : option Z;
  generate_from_target_prefix : bool;
  generation_args : gmap string PyAny;
  kwargs : gmap string PyAny;
}.

(** The arguments [attribute] hands to
    [attribution_method.prepare_and_attribute]. *)
Record PrepareArgs := {
  pa_input_texts : list string;
  pa_generated_texts : TextInput;
  pa_batch_size : option Z;
  pa_attr_pos_start : option Z;
  pa_attr_pos_end : option Z;
  pa_show_progress : bool;
  pa_pretty_progress : bool;
  pa_output_step_attributions : bool;
  pa_attribute_target : bool;
  pa_step_scores : list string;
  pa_include_eos_baseline : bool;
  pa_attributed_fn : StepFn;
  pa_attribution_args : gmap string PyAny;
  pa_attributed_fn_args : gmap string PyAny;
  pa_step_scores_args : gmap string PyAny;
}.

(** Everything the class calls but does not define: the step-score
    registry, the device check, the wrapped model, the abstract methods
    [encode] and [generate], and the attribution-method plugin. *)
Record Collaborators := {
  STEP_SCORES_MAP : gmap string StepFn;
  check_device : string -> throws unit;
  model_to : string -> throws unit;
  isnotebook : bool;
  encode : option TextInput -> bool -> bool -> bool -> throws BatchEncoding;
  input_ids : BatchEncoding -> PyAny;
  generate : BatchEncoding -> gmap string PyAny -> throws TextInput;
  load : string -> throws FeatureAttribution;
  unhook : FeatureAttribution -> throws unit;
  method_name : FeatureAttribution -> string;
  extract_args : FeatureAttribution -> StepFn -> list string -> gmap string PyAny ->
                 throws (gmap string PyAny * gmap string PyAny * gmap string PyAny);
  prepare_and_attribute : FeatureAttribution -> PrepareArgs -> throws StepOutputs;
  merge_attributions : StepOutputs -> throws FeatureAttributionOutput;
}.

(** The argument of [embed]: texts, or token ids already. *)
Inductive EmbedInput :=
| EmbedText (t : TextInput)
| EmbedIds (ids : PyAny).

(** Messages given to the logger. *)
Inductive message :=
| AttributeTargetIgnored
| GenerateFromTargetPrefixIgnored
| SplittingInputTexts (batches size : Z)
| GenerationArgsIgnored (args : gmap string PyAny)
| BatchedConstrainedDecodingUnsupported
| CustomAttributionPositionsUnsupported
| BatchedLimeUnsupported.

(** What a run does besides changing the fields: logger calls at
    warning and info level, and the calls to collaborators. *)
Inductive event :=
| Warning (msg : message)
| Info (msg : message)
| ModelTo (d : string)
| Encode (texts : option TextInput) (as_targets return_baseline include_eos : bool)
| Generate (encodings : BatchEncoding) (args : gmap string PyAny)
| Unhook (fa : FeatureAttribution)
| Load (name : string)
| ExtractArgs
| PrepareAndAttribute (fa : FeatureAttribution) (call : PrepareArgs)
| MergeAttributions
| ModelEval
| ModelZeroGrad
| Embed (inputs : EmbedInput) (as_targets : bool).

(** A method body: from the object before the call to the value returned
    or the exception raised, the object after, and the events in order. *)
Definition M (A : Type) : Type :=
  AttributionModel -> result A * AttributionModel * list event.

Definition outcome {A} (r : result A * AttributionModel * list event) : result A := r.1.1.
Definition final {A} (r : result A * AttributionModel * list event) : AttributionModel := r.1.2.
Definition events {A} (r : result A * AttributionModel * list event) : list event := r.2.

#[global] Instance M_ret : MRet M := fun A a self => (Return a, self, []).

#[global] Instance M_bind : MBind M := fun A B f x self =>
  match x self with
  | (Return a, self1, l1) =>
      match f a self1 with
      | (r, self2, l2) => (r, self2, (l1 ++ l2)%list)
      end
  | (Raise e, self1, l1) => (Raise e, self1, l1)
  end.

Definition raise {A} (e : exn) : M A := fun self => (Raise e, self, []).
Definition emit (ev : event) : M unit := fun self => (Return tt, self, [ev]).
Definition gets {A} (f : AttributionModel -> A) : M A := fun self => (Return (f self), self, []).
Definition modify (f : AttributionModel -> AttributionModel) : M unit :=
  fun self => (Return tt, f self, []).
Definition lift {A} (r : result A) : M A := fun self => (r, self, []).

(** The value or the exception of a collaborator call. *)
Definition ext {A} (r : throws A) : M A :=
  match r with
  | inr a => mret a
  | inl what => raise (External what)
  end.

Definition when (b : bool) (body : M unit) : M unit :=
  if b then body else mret tt.

(** [post x self Q]: the run of [x] from [self] ends in a result, an
    object and events related by [Q]. *)
Definition post {A} (x : M A) (self : AttributionModel)
    (Q : result A -> AttributionModel -> list event -> Prop) : Prop :=
  Q (outcome (x self)) (final (x self)) (events (x self)).

(** The events of a run after those in [l]. *)
Definition after {A} (l : list event) (r : result A * AttributionModel * list event)
  : result A * AttributionModel * list event :=
  (outcome r, final r, (l ++ events r)%list).

(** A [property] object: a getter and, possibly, a setter.  The
    decorator [@property] builds one without setter; [@p.setter] returns a
    copy of [p] carrying the decorated function as setter, and the class
    body binds that copy to the name of the decorated function. *)
Record property (G V : Type) := {
  fget : M G;
  fset : option (V -> M unit);
}.
Arguments fget {G V} p.
Arguments fset {G V} p.

Definition property_ {G V} (getter : M G) : property G V :=
  {| fget := getter; fset := None |}.

Definition setter {G V W} (p : property G V) (f : W -> M unit) : property G W :=
  {| fget := fget p; fset := Some f |}.

(** [self.name = value] for a class attribute [name] that is a property,
    as [object.__setattr__] does it.  The text of the [AttributeError] is
    the interpreter's (this is the wording up to Python 3.10; later
    versions name the property); no statement depends on it. *)
Definition setattr {G V} (p : property G V) (value : V) : M unit :=
  match fset p with
  | None => raise (AttributeError "can't set attribute")
  | Some f => f value
  end.

(** [AttributionModel] derives from [torch.nn.Module] (line 39), whose
    [__setattr__] sees an assignment before the property does: a value it
    registers itself (a parameter, a sub-module) never reaches the
    property, every other value is handed to [object.__setattr__].  [torch]
    is not part of the sources: [intercept value] is what
    [Module.__setattr__] does with a value it keeps for itself, [None] for
    a value it hands on. *)
Definition module_setattr {G V} (intercept : V -> option (throws unit))
    (p : property G V) (value : V) : M unit :=
  match intercept value with
  | Some registered => ext registered
  | None => setattr p value
  end.

Variable C : Collaborators.

(** *** The [device] property (lines 81-90) *)

Definition device_setter (new_device : string) : M unit :=
  ext (check_device C new_device);;
  modify (set_device (Some new_device));;
  has_model ← gets model;
  when has_model (emit (ModelTo new_device);; ext (model_to C new_device)).

Definition device_property : property (option string) string :=
  setter (property_ (V := string) (gets _device)) device_setter.

(** *** [__init__] (lines 68-79) *)

(** [preset] holds what a subclass stored in [self.model] (its truth
    value) and [self.is_encoder_decoder] before calling the constructor;
    [None] when [hasattr(self, "model")] is false. *)
Definition __init__ (preset : option (bool * bool)) : AttributionModel :=
  {| model := match preset with Some p => p.1 | None => false end;
     is_encoder_decoder := match preset with Some p => p.2 | None => true end;
     _device := None;
     attribution_method := None;
     _default_attributed_fn_id := "probability" |}.

(** *** [default_attributed_fn_id] and [set_attributed_fn] (lines 100-108) *)

Definition unknown_function (fn : string) : exn :=
  ValueError ("Unknown function: " +:+ fn +:+
              ". Register custom functions with inseq.register_step_function").

(** The name [default_attributed_fn_id] stays bound to the property made
    by [@property]: a getter and no setter, whatever the value assigned. *)
Definition default_attributed_fn_id {V} : property string V :=
  property_ (gets _default_attributed_fn_id).

(** The function decorated with [@default_attributed_fn_id.setter] is
    called [set_attributed_fn], so the property with the setter is bound
    to that name. *)
Definition set_attributed_fn : property string string :=
  setter (default_attributed_fn_id (V := string)) (fun fn =>
    when (negb (bool_decide (is_Some (STEP_SCORES_MAP C !! fn))))
      (raise (unknown_function fn));;
    modify (set_default_attributed_fn_id fn)).

(** *** [get_attribution_method] (lines 117-137) *)

Definition get_attribution_method (method : option string)
    (override_default_attribution : bool) : M FeatureAttribution :=
  bound ← gets attribution_method;
  if negb (opt_truthy method) then
    match bound with
    | None => raise MissingAttributionMethodError
    | Some fa => mret fa
    end
  else
    let name := default "" method in
    match bound with
    | Some old => emit (Unhook old);; ext (unhook C old)
    | None => mret tt
    end;;
    bound ← gets attribution_method;
    if override_default_attribution || negb (not_None bound) then
      emit (Load name);;
      fa ← ext (load C name);
      modify (set_attribution_method (Some fa));;
      mret fa
    else
      emit (Load name);;
      ext (load C name).

(** *** [setup] (lines 92-98) *)

(** [get_default_device] is the value of [inseq.utils.get_default_device()];
    [override_default_attribution] is the entry of that name in [**kwargs],
    which [get_attribution_method] receives.  [model.eval()] and
    [model.zero_grad()] are recorded as events. *)
Definition setup (get_default_device : string) (device attribution_method : option string)
    (override_default_attribution : bool) : M unit :=
  setattr device_property (default get_default_device device);;
  has_model ← gets model;
  when has_model
    (emit ModelEval;;
     emit ModelZeroGrad;;
     fa ← get_attribution_method attribution_method override_default_attribution;
     modify (set_attribution_method (Some fa))).

(** *** [get_attributed_fn] (lines 139-150) *)

Definition get_attributed_fn (attributed_fn : option AttributedFn) : M StepFn :=
  attributed_fn ←
    match attributed_fn with
    | None => key ← fget (default_attributed_fn_id (V := string)); mret (FnKey key)
    | Some f => mret f
    end;
  match attributed_fn with
  | FnKey key =>
      match STEP_SCORES_MAP C !! key with
      | None => raise (unknown_function key)
      | Some f => mret f
      end
  | FnCallable f => mret f
  end.

(** *** [attribute] (lines 152-313) *)

(** The local variables of [attribute] that are live at line 267, once
    texts, method, attributed function and arguments are resolved. *)
Record Locals := {
  l_input_texts : list string;
  l_generated_texts : TextInput;
  l_has_generated_texts : bool;
  l_attribute_target : bool;
  l_generate_from_target_prefix : bool;
  l_generation_args : gmap string PyAny;
  l_original_device : option string;
  l_attribution_method : FeatureAttribution;
  l_attributed_fn : StepFn;
  l_attribution_args : gmap string PyAny;
  l_attributed_fn_args : gmap string PyAny;
  l_step_scores_args : gmap string PyAny;
  l_pretty_progress : bool;
}.

(** Lines 228-266: validation, device override, text normalisation,
    generation or constrained decoding, resolution of the method, of the
    attributed function and of the keyword arguments.  The test
    [not has_generated_texts or generate_from_target_prefix] of line 247
    is the [match] on the formatted targets and the flag: only supplied
    targets with the flag off take the branch without generation. *)
Definition attribute_resolve (a : AttributeArgs) : M Locals :=
  when (negb (text_truthy (input_texts a)))
    (raise (ValueError "At least one text must be provided to perform attribution."));;
  encdec ← gets is_encoder_decoder;
  attribute_target ←
    (if attribute_target a && negb encdec
     then emit (Warning AttributeTargetIgnored);; mret false
     else mret (attribute_target a));
  encdec ← gets is_encoder_decoder;
  generate_from_target_prefix ←
    (if generate_from_target_prefix a && negb encdec
     then emit (Warning GenerateFromTargetPrefixIgnored);; mret false
     else mret (generate_from_target_prefix a));
  original_device ← fget device_property;
  match device a with
  | Some d => setattr device_property d
  | None => mret tt
  end;;
  formatted ← lift (format_input_texts (input_texts a) (generated_texts a));
  let input_texts := formatted.1 in
  let generated_texts := formatted.2 in
  match batch_size a with
  | Some size =>
      if size =? 0 then raise ZeroDivisionError
      else emit (Info (SplittingInputTexts
                         (n_batches (Z.of_nat (length input_texts)) size) size))
  | None => mret tt
  end;;
  let has_generated_texts := not_None generated_texts in
  resolved ←
    match generated_texts, generate_from_target_prefix with
    | Some targets, false =>
        when (negb (Nat.eqb (size (generation_args a)) 0))
          (emit (Warning (GenerationArgsIgnored (generation_args a))));;
        mret (Texts targets, generation_args a)
    | _, _ =>
        emit (Encode (Some (Texts input_texts)) false true (include_eos_baseline a));;
        encoded_input ← ext (encode C (Some (Texts input_texts)) false true
                                (include_eos_baseline a));
        generation_args ←
          (if generate_from_target_prefix then
             emit (Encode (Texts <$> generated_texts) true false false);;
             decoder_input ← ext (encode C (Texts <$> generated_texts) true false false);
             mret (<["decoder_input_ids" := input_ids C decoder_input]> (generation_args a))
           else mret (generation_args a));
        emit (Generate encoded_input generation_args);;
        generated ← ext (generate C encoded_input generation_args);
        mret (generated, generation_args)
    end;
  attribution_method ←
    get_attribution_method (method a) (override_default_attribution a);
  attributed_fn ← get_attributed_fn (attributed_fn a);
  emit ExtractArgs;;
  extracted ← ext (extract_args C attribution_method attributed_fn
                     (step_scores a) (kwargs a));
  let pretty_progress := if isnotebook C then false else pretty_progress a in
  mret {| l_input_texts := input_texts;
          l_generated_texts := resolved.1;
          l_has_generated_texts := has_generated_texts;
          l_attribute_target := attribute_target;
          l_generate_from_target_prefix := generate_from_target_prefix;
          l_generation_args := resolved.2;
          l_original_device := original_device;
          l_attribution_method := attribution_method;
          l_attributed_fn := attributed_fn;
          l_attribution_args := extracted.1.1;
          l_attributed_fn_args := extracted.1.2;
          l_step_scores_args := extracted.2;
          l_pretty_progress := pretty_progress |}.

Definition forced_generation_message : string :=
  "Forced generations with decoder-only models must start with the input texts.".

(** Lines 267-313: the decoder-only precondition, the batch-size policy,
    the dispatch to the attribution method, the merge, the run metadata
    and the restoration of the device. *)
Definition attribute_dispatch (a : AttributeArgs) (l : Locals)
  : M FeatureAttributionOutput :=
  let input_texts := l_input_texts l in
  let generated_texts := l_generated_texts l in
  encdec ← gets is_encoder_decoder;
  batch_size ←
    (if negb encdec then
       ok ← lift (all_startswith generated_texts 0 input_texts);
       when (negb ok) (raise (AssertionError forced_generation_message));;
       batch_size ←
         (if l_has_generated_texts l && (1 <? length input_texts)%nat
          then emit (Info BatchedConstrainedDecodingUnsupported);; mret (Some 1)
          else mret (batch_size a));
       (if (1 <? length input_texts)%nat
           && (not_None (attr_pos_start a) || not_None (attr_pos_end a))
        then emit (Info CustomAttributionPositionsUnsupported);; mret (Some 1)
        else mret batch_size)
     else mret (batch_size a));
  batch_size ←
    (if bool_decide (method_name C (l_attribution_method l) = "lime")
     then emit (Info BatchedLimeUnsupported);; mret (Some 1)
     else mret batch_size);
  let call :=
    {| pa_input_texts := input_texts;
       pa_generated_texts := generated_texts;
       pa_batch_size := batch_size;
       pa_attr_pos_start := attr_pos_start a;
       pa_attr_pos_end := attr_pos_end a;
       pa_show_progress := show_progress a;
       pa_pretty_progress := l_pretty_progress l;
       pa_output_step_attributions := output_step_attributions a;
       pa_attribute_target := l_attribute_target l;
       pa_step_scores := step_scores a;
       pa_include_eos_baseline := include_eos_baseline a;
       pa_attributed_fn := l_attributed_fn l;
       pa_attribution_args := l_attribution_args l;
       pa_attributed_fn_args := l_attributed_fn_args l;
       pa_step_scores_args := l_step_scores_args l |} in
  emit (PrepareAndAttribute (l_attribution_method l) call);;
  attribution_outputs ← ext (prepare_and_attribute C (l_attribution_method l) call);
  emit MergeAttributions;;
  attribution_output ← ext (merge_attributions C attribution_outputs);
  let attribution_output :=
    info_set "generate_from_target_prefix" (InfoBool (l_generate_from_target_prefix l))
      (info_set "constrained_decoding" (InfoBool (l_has_generated_texts l))
         (info_set "generation_args" (InfoArgs (l_generation_args l))
            (info_set "generated_texts" (InfoTexts (as_list generated_texts))
               (info_set "input_texts" (InfoTexts input_texts) attribution_output)))) in
  match device a, l_original_device l with
  | Some d, Some original_device =>
      when (str_truthy d && str_truthy original_device)
        (setattr device_property original_device)
  | _, _ => mret tt
  end;;
  mret attribution_output.

Definition attribute (a : AttributeArgs) : M FeatureAttributionOutput :=
  l ← attribute_resolve a;
  attribute_dispatch a l.

(** *** [embed] (lines 315-321) *)

(** [isinstance(inputs, str) or (isinstance(inputs, list) and
    len(inputs) > 0 and all(isinstance(x, str) for x in inputs))]. *)
Definition is_text_input (inputs : EmbedInput) : bool :=
  match inputs with
  | EmbedText (Text _) => true
  | EmbedText (Texts l) => (0 <? length l)%nat
  | EmbedIds _ => false
  end.

(** [embed_ids] is the abstract method of that name; it receives whatever
    [inputs] holds at line 321. *)
Definition embed (embed_ids : EmbedInput -> bool -> throws PyAny)
    (inputs : EmbedInput) (as_targets : bool) : M PyAny :=
  inputs ←
    (if is_text_input inputs then
       let texts := match inputs with EmbedText t => Some t | EmbedIds _ => None end in
       emit (Encode texts as_targets false false);;
       batch ← ext (encode C texts as_targets false false);
       mret (EmbedIds (input_ids C batch))
     else mret inputs);
  emit (Embed inputs as_targets);;
  ext (embed_ids inputs as_targets).



(** *** Vocabulary of the statements *)

(** The event of handing the texts to the attribution method. *)
Definition is_dispatch (ev : event) : Prop :=
  match ev with
  | PrepareAndAttribute _ _ => True
  | _ => False
  end.

(** The events of the generation path: encoding and generation. *)
Definition is_generation (ev : event) : Prop :=
  match ev with
  | Encode _ _ _ _ | Generate _ _ => True
  | _ => False
  end.

(** Every event of a run satisfies [P]. *)
Definition all_events {A} (P : event -> Prop)
  : result A -> AttributionModel -> list event -> Prop :=
  fun _ _ l => Forall P l.

(** Every event of a run satisfies [P], the object it ends in satisfies
    [I], and the exception it raises, if any, satisfies [E]. *)
Definition kept {A} (P : event -> Prop) (I : AttributionModel -> Prop) (E : exn -> Prop)
  : result A -> AttributionModel -> list event -> Prop :=
  fun r self l =>
    Forall P l /\ I self /\
    match r with
    | Return _ => True
    | Raise e => E e
    end.

(** Events that are neither a dispatch nor part of the generation path. *)
Definition is_quiet (ev : event) : Prop := ~ is_dispatch ev /\ ~ is_generation ev.

(** The device setter of line 240 returns normally (or is not called). *)
Definition device_override_accepted (a : AttributeArgs) (self : AttributionModel) : Prop :=
  match device a with
  | Some d => outcome (setattr device_property d self) = Return tt
  | None => True
  end.

(** The object after line 240. *)
Definition after_device_override (a : AttributeArgs) (self : AttributionModel)
  : AttributionModel :=
  match device a with
  | Some d => final (setattr device_property d self)
  | None => self
  end.

(** The generation path of lines 247-252, taken without targets or with
    targets used as prefixes: what was encoded and generated, and the
    generation arguments that resulted. *)
Definition resolved_generation (a : AttributeArgs) (L : Locals) (l1 : list event) : Prop :=
  generated_texts a = None \/ l_generate_from_target_prefix L = true ->
  exists encoded_input,
    encode C (Some (Texts (l_input_texts L))) false true (include_eos_baseline a)
      = inr encoded_input /\
    generate C encoded_input (l_generation_args L) = inr (l_generated_texts L) /\
    Generate encoded_input (l_generation_args L) ∈ l1 /\
    if l_generate_from_target_prefix L then
      exists decoder_input,
        encode C ((fun g => Texts (as_list g)) <$> generated_texts a) true false false
          = inr decoder_input /\
        l_generation_args L
          = <["decoder_input_ids" := input_ids C decoder_input]> (generation_args a)
    else l_generation_args L = generation_args a.

(** The method resolved at line 259 and the binding it leaves. *)
Definition resolved_method (a : AttributeArgs) (self : AttributionModel) (L : Locals)
    (self1 : AttributionModel) : Prop :=
  (if opt_truthy (method a)
   then load C (default "" (method a)) = inr (l_attribution_method L)
   else attribution_method self = Some (l_attribution_method L)) /\
  attribution_method self1 =
    if opt_truthy (method a)
       && (override_default_attribution a || negb (not_None (attribution_method self)))
    then Some (l_attribution_method L)
    else attribution_method self.

(** The attributed function, the keyword arguments and the progress flag
    resolved at lines 260-266. *)
Definition resolved_call (a : AttributeArgs) (self : AttributionModel) (L : Locals) : Prop :=
  l_pretty_progress L = (if isnotebook C then false else pretty_progress a) /\
  outcome (get_attributed_fn (attributed_fn a) self) = Return (l_attributed_fn L) /\
  extract_args C (l_attribution_method L) (l_attributed_fn L) (step_scores a) (kwargs a)
    = inr (l_attribution_args L, l_attributed_fn_args L, l_step_scores_args L).

(** The arguments of [prepare_and_attribute] that [attribute] passes on
    as it received or resolved them. *)
Definition passed_on (a : AttributeArgs) (L : Locals) (call : PrepareArgs) : Prop :=
  pa_input_texts call = l_input_texts L /\
  pa_generated_texts call = l_generated_texts L /\
  pa_attr_pos_start call = attr_pos_start a /\
  pa_attr_pos_end call = attr_pos_end a /\
  pa_show_progress call = show_progress a /\
  pa_pretty_progress call = l_pretty_progress L /\
  pa_output_step_attributions call = output_step_attributions a /\
  pa_attribute_target call = l_attribute_target L /\
  pa_step_scores call = step_scores a /\
  pa_include_eos_baseline call = include_eos_baseline a /\
  pa_attributed_fn call = l_attributed_fn L /\
  pa_attribution_args call = l_attribution_args L /\
  pa_attributed_fn_args call = l_attributed_fn_args L /\
  pa_step_scores_args call = l_step_scores_args L.

(** What is known of the exception [e] when lines 228-266 raise. *)
Definition resolve_failure (a : AttributeArgs) (self : AttributionModel) (e : exn) : Prop :=
  text_truthy (input_texts a) = true ->
  device_override_accepted a self ->
  forall e', format_input_texts (input_texts a) (generated_texts a) = Raise e' -> e = e'.

(** The batch-size policy in the words of the spec: the size is forced
    to 1 (a) for a decoder-only model given explicit targets and more than
    one input text, (b) for a decoder-only model given more than one input
    text and an attribution position, (c) for the method named "lime". *)
Definition batch_size_forced (encoder_decoder has_targets : bool) (n_texts : nat)
    (pos_start pos_end : option Z) (name : string) : bool :=
  (negb encoder_decoder && has_targets && (1 <? n_texts)%nat)
  || (negb encoder_decoder && (1 <? n_texts)%nat
      && (not_None pos_start || not_None pos_end))
  || bool_decide (name = "lime").

Definition effective_batch_size (a : AttributeArgs) (encoder_decoder : bool)
    (name : string) : option Z :=
  if batch_size_forced encoder_decoder (not_None (generated_texts a))
       (length (as_list (input_texts a))) (attr_pos_start a) (attr_pos_end a) name
  then Some 1
  else batch_size a.

(** The decoder-only precondition of line 268 on the resolved texts;
    an encoder-decoder model skips it. *)
Definition prefix_check (L : Locals) (self1 : AttributionModel) : result bool :=
  if is_encoder_decoder self1 then Return true
  else all_startswith (l_generated_texts L) 0 (l_input_texts L).

(** The run metadata written at lines 304-310. *)
Definition run_metadata (L : Locals) (out : FeatureAttributionOutput) : Prop :=
  info out !! "input_texts" = Some (InfoTexts (l_input_texts L)) /\
  info out !! "generated_texts" = Some (InfoTexts (as_list (l_generated_texts L))) /\
  info out !! "generation_args" = Some (InfoArgs (l_generation_args L)) /\
  info out !! "constrained_decoding" = Some (InfoBool (l_has_generated_texts L)) /\
  info out !! "generate_from_target_prefix"
    = Some (InfoBool (l_generate_from_target_prefix L)).

(** The device after lines 311-313, from the device [current] before. *)
Definition restored_device (a : AttributeArgs) (L : Locals) (current : option string)
  : option string :=
  if opt_truthy (device a) && opt_truthy (l_original_device L)
  then l_original_device L
  else current.

(** What a run of lines 267-313 from [self1] does: it stops at the
    precondition without any event, or dispatches exactly once, with the
    policy's batch size, between quiet events. *)
Definition dispatched (a : AttributeArgs) (L : Locals) (self1 : AttributionModel)
    (r : result FeatureAttributionOutput) (self2 : AttributionModel)
    (l2 : list event) : Prop :=
  match prefix_check L self1 with
  | Return true =>
      exists infos call tail,
        l2 = (infos ++ PrepareAndAttribute (l_attribution_method L) call :: tail)%list /\
        Forall is_quiet infos /\ Forall is_quiet tail /\
        pa_input_texts call = l_input_texts L /\
        pa_generated_texts call = l_generated_texts L /\
        pa_attribute_target call = l_attribute_target L /\
        pa_batch_size call =
          (if batch_size_forced (is_encoder_decoder self1) (l_has_generated_texts L)
                (length (l_input_texts L)) (attr_pos_start a) (attr_pos_end a)
                (method_name C (l_attribution_method L))
           then Some 1 else batch_size a) /\
        is_encoder_decoder self2 = is_encoder_decoder self1 /\
        forall out, r = Return out ->
          run_metadata L out /\
          _device self2 = restored_device a L (_device self1)
  | Return false =>
      r = Raise (AssertionError forced_generation_message) /\ self2 = self1 /\ l2 = []
  | Raise e => r = Raise e /\ self2 = self1 /\ l2 = []
  end.

(** What is known of the local variables [L], of the object [self1] and
    of the events [l1] when lines 228-266 have run from [self] without
    raising. *)
Definition resolved_locals (a : AttributeArgs) (self : AttributionModel)
    (L : Locals) (self1 : AttributionModel) (l1 : list event) : Prop :=
  text_truthy (input_texts a) = true /\
  l_original_device L = _device self /\
  _device self1 = match device a with Some d => Some d | None => _device self end /\
  l_attribute_target L = attribute_target a && is_encoder_decoder self /\
  l_generate_from_target_prefix L
    = generate_from_target_prefix a && is_encoder_decoder self /\
  l_input_texts L = as_list (input_texts a) /\
  l_has_generated_texts L = not_None (generated_texts a) /\
  (forall g, generated_texts a = Some g ->
     length (as_list g) = length (as_list (input_texts a)) /\
     (l_generate_from_target_prefix L = false ->
        l_generated_texts L = Texts (as_list g) /\
        l_generation_args L = generation_args a /\
        (size (generation_args a) <> 0%nat ->
           Warning (GenerationArgsIgnored (generation_args a)) ∈ l1))) /\
  (opt_truthy (method a) = true \/ attribution_method self <> None) /\
  (forall k, attributed_fn a = Some (FnKey k) ->
     STEP_SCORES_MAP C !! k = Some (l_attributed_fn L)).


End AttributionModel.

Arguments fget {_ _ _ _ G V} p.
Arguments fset {_ _ _ _ G V} p.

(** ** A small instance of the collaborators

    Test doubles used to run the methods on concrete calls: devices are
    "cpu" and "cuda", encoding keeps the texts, generation appends a word to
    every input, three attribution methods can be loaded, and the
    attribution method hands back the input texts it received. *)
Module Demo.

Definition STEP_SCORES : gmap string string :=
  <["probability" := "probability_fn"]> (<["entropy" := "entropy_fn"]> ∅).

Definition known_device (d : string) : bool :=
  bool_decide (d = "cpu") || bool_decide (d = "cuda").

Definition known_method (name : string) : bool :=
  bool_decide (name = "integrated_gradients")
  || bool_decide (name = "saliency")
  || bool_decide (name = "lime").

Definition collaborators
  : @Collaborators Z string string (list string) (list string) (list string) :=
  {| STEP_SCORES_MAP := STEP_SCORES;
     check_device := fun d => if known_device d then inr tt else inl "Unknown device";
     model_to := fun _ => inr tt;
     isnotebook := false;
     encode := fun texts _ _ _ => inr (from_option as_list [] texts);
     input_ids := fun _ => 0;
     generate := fun enc _ => inr (Texts ((fun s => s +:+ " 350") <$> enc));
     load := fun name =>
       if known_method name then inr name else inl "UnknownAttributionMethodError";
     unhook := fun _ => inr tt;
     method_name := fun fa => fa;
     extract_args := fun _ _ _ kw => inr (kw, ∅, ∅);
     prepare_and_attribute := fun _ call => inr (pa_input_texts call);
     merge_attributions := fun outs => inr {| attributions := outs; info := ∅ |} |}.

(** A decoder-only model on "cuda" with integrated gradients bound. *)
Definition gpt : @AttributionModel string :=
  {| model := true;
     is_encoder_decoder := false;
     _device := Some "cuda";
     attribution_method := Some "integrated_gradients";
     _default_attributed_fn_id := "probability" |}.

(** The same model before [setup]: no device, no method. *)
Definition fresh : @AttributionModel string :=
  {| model := true;
     is_encoder_decoder := false;
     _device := None;
     attribution_method := None;
     _default_attributed_fn_id := "probability" |}.

(** The same model with no method bound. *)
Definition unbound : @AttributionModel string :=
  {| model := true;
     is_encoder_decoder := false;
     _device := Some "cuda";
     attribution_method := None;
     _default_attributed_fn_id := "probability" |}.

(** A call of [attribute]; the parameters not listed keep their default. *)
Definition call (input_texts : TextInput) (generated_texts : option TextInput)
    (method device : option string) (batch_size : option Z)
    (attribute_target generate_from_target_prefix : bool)
    (attributed_fn : option (@AttributedFn string))
    (generation_args : gmap string Z) : @AttributeArgs Z string :=
  {| input_texts := input_texts;
     generated_texts := generated_texts;
     method := method;
     override_default_attribution := false;
     attr_pos_start := None;
     attr_pos_end := None;
     show_progress := true;
     pretty_progress := false;
     output_step_attributions := false;
     attribute_target := attribute_target;
     step_scores := [];
     include_eos_baseline := false;
     attributed_fn := attributed_fn;
     device := device;
     batch_size := batch_size;
     generate_from_target_prefix := generate_from_target_prefix;
     generation_args := generation_args;
     kwargs := ∅ |}.

Definition cake_input : TextInput := Text "how much is the cake?".
Definition cake_target : TextInput := Text "how much is the cake? 350 rubles".

(** The scenario of the spec: constrained decoding of one example. *)
Definition cake : @AttributeArgs Z string :=
  call cake_input (Some cake_target) None None None false false None ∅.

(** The same call with the device overridden to "cpu". *)
Definition cake_on_cpu : @AttributeArgs Z string :=
  call cake_input (Some cake_target) None (Some "cpu") None false false None ∅.

(** The same call with a one-off method and the device overridden. *)
Definition cake_saliency_on_cpu : @AttributeArgs Z string :=
  call cake_input (Some cake_target) (Some "saliency") (Some "cpu") None false false None ∅.



(** The same call with an attributed function that is not registered. *)
Definition cake_perplexity : @AttributeArgs Z string :=
  call cake_input (Some cake_target) None None None false false
    (Some (FnKey "perplexity")) ∅.

(** A target that does not start with the input. *)
Definition cake_unrelated_target : @AttributeArgs Z string :=
  call cake_input (Some (Text "350 rubles")) None None None false false None ∅.

(** Two examples with targets and a requested batch size of 4. *)
Definition two_examples : @AttributeArgs Z string :=
  call (Texts ["how much"; "how many"])
    (Some (Texts ["how much is it"; "how many are there"]))
    None None (Some 4) false false None ∅.

(** Two inputs and one target. *)
Definition mismatched : @AttributeArgs Z string :=
  call (Texts ["how much"; "how many"]) (Some (Text "how much is it"))
    None None None false false None ∅.

(** No input at all. *)
Definition no_input : @AttributeArgs Z string :=
  call (Texts []) None None None None false false None ∅.

(** An encoder-decoder model on "cuda" with integrated gradients bound. *)
Definition marian : @AttributionModel string :=
  {| model := true;
     is_encoder_decoder := true;
     _device := Some "cuda";
     attribution_method := Some "integrated_gradients";
     _default_attributed_fn_id := "probability" |}.

(** The cake example without target: the model generates. *)
Definition cake_generated : @AttributeArgs Z string :=
  call cake_input None None None None false false None (<["max_new_tokens" := 20]> ∅).

(** The cake example with a target prefix to generate from. *)
Definition cake_from_prefix : @AttributeArgs Z string :=
  call cake_input (Some (Text "350")) None None None false true None ∅.

(** The cake example with a batch size of 0. *)
Definition cake_zero_batch : @AttributeArgs Z string :=
  call cake_input (Some cake_target) None None (Some 0) false false None ∅.

(** Values one may assign to an attribute of the model, as
    [torch.nn.Module.__setattr__] tells them apart. *)
Inductive value :=
| Str (s : string)
| SubModule
| Param.

(** What [torch.nn.Module.__setattr__] does with them for a name that is
    a property of the class: a sub-module is registered, a parameter is
    refused with a [KeyError] (the attribute exists already), a string is
    handed on to [object.__setattr__]. *)
Definition nn_module_setattr (v : value) : option (throws unit) :=
  match v with
  | Str _ => None
  | SubModule => Some (inr tt)
  | Param => Some (inl "KeyError")
  end.

(** The methods of the demonstration model. *)
Definition gpt_method : Type -> Type := @M Z string string (list string).

(** An [embed_ids] that takes token ids only. *)
Definition embed_ids (inputs : @EmbedInput Z) (as_targets : bool) : throws Z :=
  match inputs with
  | EmbedIds ids => inr ids
  | EmbedText _ => inl "TypeError"
  end.

End Demo.

Section Rules.
Context {PyAny StepFn FeatureAttribution BatchEncoding StepOutputs Attributions : Type}.
Local Abbreviation Model := (@AttributionModel FeatureAttribution).
Local Abbreviation M := (@M PyAny StepFn FeatureAttribution BatchEncoding).
Local Abbreviation event := (@event PyAny StepFn FeatureAttribution BatchEncoding).
Implicit Types (m : Model) (l : list event).

Lemma post_run {A} (x : M A) m Q r m' l :
  post x m Q -> x m = (r, m', l) -> Q r m' l.
Proof. unfold post. intros H E. rewrite E in H. exact H. Qed.

Lemma post_intro {A} (x : M A) m (Q : result A -> Model -> list event -> Prop) :
  (forall r m' l, x m = (r, m', l) -> Q r m' l) -> post x m Q.
Proof. intros H. unfold post. apply H. by destruct (x m) as [[??]?]. Qed.

Lemma post_mono {A} (x : M A) m (Q Q' : result A -> Model -> list event -> Prop) :
  post x m Q -> (forall r m' l, Q r m' l -> Q' r m' l) -> post x m Q'.
Proof. unfold post. auto. Qed.

Lemma post_bind {A B} (x : M A) (f : A -> M B) m Q :
  post x m (fun r m1 l1 =>
    match r with
    | Return a => post (f a) m1 (fun r' m2 l2 => Q r' m2 (l1 ++ l2)%list)
    | Raise e => Q (Raise e) m1 l1
    end) ->
  post (x ≫= f) m Q.
Proof.
  unfold post, mbind, M_bind, outcome, final, events.
  destruct (x m) as [[[a|e] m1] l1]; cbn; [|done].
  by destruct (f a m1) as [[r m2] l2].
Qed.

Lemma post_seq {A B} (x : M A) (f : A -> M B) m Q1 Q :
  post x m Q1 ->
  (forall r m1 l1, Q1 r m1 l1 ->
    match r with
    | Return a => post (f a) m1 (fun r' m2 l2 => Q r' m2 (l1 ++ l2)%list)
    | Raise e => Q (Raise e) m1 l1
    end) ->
  post (x ≫= f) m Q.
Proof. intros H1 H2. apply post_bind. eapply post_mono; [exact H1|exact H2]. Qed.

Lemma post_ret {A} (a : A) m (Q : result A -> Model -> list event -> Prop) :
  Q (Return a) m [] -> post (mret a) m Q.
Proof. done. Qed.
Lemma post_raise {A} e m (Q : result A -> Model -> list event -> Prop) :
  Q (Raise e) m [] -> post (raise e) m Q.
Proof. done. Qed.
Lemma post_emit ev m (Q : result unit -> Model -> list event -> Prop) :
  Q (Return tt) m [ev] -> post (emit ev) m Q.
Proof. done. Qed.
Lemma post_gets {A} (g : Model -> A) m (Q : result A -> Model -> list event -> Prop) :
  Q (Return (g m)) m [] -> post (gets g) m Q.
Proof. done. Qed.
Lemma post_modify (g : Model -> Model) m (Q : result unit -> Model -> list event -> Prop) :
  Q (Return tt) (g m) [] -> post (modify g) m Q.
Proof. done. Qed.
Lemma post_lift {A} (r : result A) m (Q : result A -> Model -> list event -> Prop) :
  Q r m [] -> post (lift r) m Q.
Proof. done. Qed.
Lemma post_ext {A} (r : throws A) m (Q : result A -> Model -> list event -> Prop) :
  match r with inr a => Q (Return a) m [] | inl w => Q (Raise (External w)) m [] end ->
  post (ext r) m Q.
Proof. by destruct r. Qed.

(** Running a bind whose first part is known. *)
Lemma bind_Return {A B} (x : M A) (f : A -> M B) m a m1 l1 :
  x m = (Return a, m1, l1) -> (x ≫= f) m = after l1 (f a m1).
Proof.
  intros E. unfold mbind, M_bind, after, outcome, final, events. rewrite E.
  by destruct (f a m1) as [[??]?].
Qed.
Lemma bind_Raise {A B} (x : M A) (f : A -> M B) m e m1 l1 :
  x m = (Raise e, m1, l1) -> (x ≫= f) m = (Raise e, m1, l1).
Proof. intros E. unfold mbind, M_bind. by rewrite E. Qed.
Lemma after_nil {A} (r : result A * Model * list event) : after [] r = r.
Proof. by destruct r as [[??]?]. Qed.
End Rules.

(** Membership in a log built by [++] and [::]. *)
Ltac in_log :=
  rewrite ?elem_of_app, ?elem_of_cons; auto 10.

Section Helpers.
Context {PyAny StepFn FeatureAttribution BatchEncoding StepOutputs Attributions : Type}.
Variable C : @Collaborators PyAny StepFn FeatureAttribution BatchEncoding StepOutputs Attributions.
Local Abbreviation Model := (@AttributionModel FeatureAttribution).
Implicit Types (m : Model).

(** The device setter, case by case. *)
Lemma device_setter_run d m :
  setattr (device_property C) d m =
  match check_device C d with
  | inl w => (Raise (External w), m, [])
  | inr _ =>
      if model m then
        match model_to C d with
        | inl w => (Raise (External w), set_device (Some d) m, [ModelTo d])
        | inr _ => (Return tt, set_device (Some d) m, [ModelTo d])
        end
      else (Return tt, set_device (Some d) m, [])
  end.
Proof.
  unfold setattr, device_property, setter, fset, device_setter.
  unfold mbind, M_bind, ext, modify, gets, when, emit, raise, mret, M_ret.
  destruct (check_device C d) as [w|[]]; [done|]. cbn.
  destruct (model m); [|done].
  by destruct (model_to C d) as [w|[]].
Qed.

Lemma get_attribution_method_run meth ov m :
  get_attribution_method C meth ov m =
  if opt_truthy meth then
    let name := default "" meth in
    match attribution_method m with
    | Some old =>
        match unhook C old with
        | inl w => (Raise (External w), m, [Unhook old])
        | inr _ =>
            match load C name with
            | inl w => (Raise (External w), m, [Unhook old; Load name])
            | inr fa =>
                (Return fa,
                 if ov then set_attribution_method (Some fa) m else m,
                 [Unhook old; Load name])
            end
        end
    | None =>
        match load C name with
        | inl w => (Raise (External w), m, [Load name])
        | inr fa => (Return fa, set_attribution_method (Some fa) m, [Load name])
        end
    end
  else
    match attribution_method m with
    | None => (Raise MissingAttributionMethodError, m, [])
    | Some fa => (Return fa, m, [])
    end.
Proof.
  unfold get_attribution_method.
  unfold mbind, M_bind, ext, modify, gets, when, emit, raise, mret, M_ret.
  destruct (opt_truthy meth); cbn; [|by destruct (attribution_method m)].
  destruct (attribution_method m) as [old|] eqn:E; cbn.
  - destruct (unhook C old) as [w|[]]; [done|]. cbn. rewrite E. cbn.
    destruct ov; cbn; by destruct (load C _).
  - rewrite E. cbn. rewrite orb_true_r. by destruct (load C _).
Qed.

Lemma get_attributed_fn_run fn m :
  get_attributed_fn C fn m =
  match default (FnKey (_default_attributed_fn_id m)) fn with
  | FnKey key =>
      match STEP_SCORES_MAP C !! key with
      | None => (Raise (unknown_function key), m, [])
      | Some f => (Return f, m, [])
      end
  | FnCallable f => (Return f, m, [])
  end.
Proof.
  unfold get_attributed_fn, default_attributed_fn_id, property_, fget.
  unfold mbind, M_bind, ext, modify, gets, when, emit, raise, mret, M_ret.
  destruct fn as [[key|f]|]; cbn; try done; by destruct (STEP_SCORES_MAP C !! _).
Qed.
End Helpers.

Section Resolve.
Context {PyAny StepFn FeatureAttribution BatchEncoding StepOutputs Attributions : Type}.
Variable C : @Collaborators PyAny StepFn FeatureAttribution BatchEncoding StepOutputs Attributions.
Local Abbreviation Model := (@AttributionModel FeatureAttribution).
Local Abbreviation event := (@event PyAny StepFn FeatureAttribution BatchEncoding).
Local Abbreviation Args := (@AttributeArgs PyAny StepFn).
Implicit Types (m : Model) (l : list event) (a : Args).

Lemma post_flag (c v : bool) w m (Q : result bool -> Model -> list event -> Prop) :
  Q (Return (if c then false else v)) m (if c then [Warning w] else []) ->
  post (if c then emit (Warning w);; mret false else mret v) m Q.
Proof. by destruct c. Qed.

Lemma flag_value (v e : bool) : (if v && negb e then false else v) = v && e.
Proof. by destruct v, e. Qed.

Lemma format_input_texts_Return texts ref inputs targets :
  format_input_texts texts ref = Return (inputs, targets) ->
  inputs = as_list texts /\
  targets = as_list <$> ref /\
  forall g, ref = Some g -> length (as_list g) = length (as_list texts).
Proof.
  unfold format_input_texts. destruct ref as [g|]; [|by intros [= <- <-]].
  destruct (Nat.eqb_spec (length (as_list texts)) (length (as_list g))) as [E|];
    [|done].
  intros [= <- <-]. repeat split. by intros ? [= <-].
Qed.

(** Lines 228-266, when they return and when they raise. *)
Lemma attribute_resolve_locals a m :
  post (attribute_resolve C a) m (fun r m1 l1 =>
    is_encoder_decoder m1 = is_encoder_decoder m /\
    match r with
    | Return L => resolved_locals C a m L m1 l1
    | Raise e => resolve_failure C a m e
    end).
Proof.
  unfold attribute_resolve.
  apply post_bind. destruct (text_truthy (input_texts a)) eqn:Ht; cbn [negb when].
  2: { apply post_raise. split; [done|]. unfold resolve_failure. congruence. }
  apply post_ret. cbn [app].
  apply post_bind, post_gets.
  apply post_bind, post_flag. rewrite flag_value.
  apply post_bind, post_gets.
  apply post_bind, post_flag. rewrite flag_value.
  apply post_bind, post_gets.
  eapply post_seq with (Q1 := fun r m1 l1 =>
    model m1 = model m /\ is_encoder_decoder m1 = is_encoder_decoder m /\
    attribution_method m1 = attribution_method m /\
    _default_attributed_fn_id m1 = _default_attributed_fn_id m /\
    match r with
    | Return _ =>
        _device m1 = match device a with Some d => Some d | None => _device m end
    | Raise _ => ~ device_override_accepted C a m
    end).
  { unfold device_override_accepted.
    destruct (device a) as [d|]; [|by apply post_ret].
    unfold post. rewrite device_setter_run.
    destruct (check_device C d) as [?|[]]; [by repeat split|].
    destruct (model m) eqn:Em; [|by repeat split].
    destruct (model_to C d) as [?|[]]; by repeat split. }
  intros [[]|e] m1 l1 (Hmod & Henc & Hbound & Hfn & Hdev);
    [|split; [done|]; by intros ??].
  apply post_bind, post_lift.
  destruct (format_input_texts _ _) as [[inputs targets]|e] eqn:Hfmt;
    [|split; [done|]; intros ?? e'; congruence].
  assert (Hfail : forall e, resolve_failure C a m e).
  { intros e ?? e'. congruence. }
  destruct (format_input_texts_Return _ _ _ _ Hfmt) as (-> & -> & Hlen).
  clear Hfmt. cbn [fst snd].
  eapply post_seq with (Q1 := fun r m2 l2 => m2 = m1).
  { destruct (batch_size a) as [size|]; [|done]. by destruct (size =? 0). }
  intros [[]|e] m2 l2 ->; [|done].
  eapply post_seq with (Q1 := fun r m2 l2 => m2 = m1 /\
    forall res, r = Return res ->
    forall g, generated_texts a = Some g ->
      generate_from_target_prefix a && is_encoder_decoder m = false ->
      res = (Texts (as_list g), generation_args a) /\
      (size (generation_args a) <> 0%nat ->
       Warning (GenerationArgsIgnored (generation_args a)) ∈ l2)).
  { destruct (generated_texts a) as [g|] eqn:Hg; cbn [fmap option_fmap option_map].
    - destruct (generate_from_target_prefix a && is_encoder_decoder m) eqn:Hp.
      + apply post_bind, post_emit, post_bind, post_ext.
        destruct (encode C _ _ _ _); [done|].
        apply post_bind, post_bind, post_emit, post_bind, post_ext.
        destruct (encode C _ _ _ _); [done|].
        apply post_ret, post_bind, post_emit, post_bind, post_ext.
        destruct (generate C _ _); [done|]. by apply post_ret.
      + apply post_bind. unfold when.
        destruct (size (generation_args a) =? 0)%nat eqn:Hsz; cbn [negb].
        * apply post_ret, post_ret. split; [done|]. intros ? [= <-] ? [= <-] _.
          split; [done|]. by apply Nat.eqb_eq in Hsz.
        * apply post_emit, post_ret. split; [done|]. intros ? [= <-] ? [= <-] _.
          split; [done|]. intros _. in_log.
    - apply post_bind, post_emit, post_bind, post_ext.
      destruct (encode C _ _ _ _); [done|].
      apply post_bind. destruct (generate_from_target_prefix a && _).
      + apply post_bind, post_emit, post_bind, post_ext.
        destruct (encode C _ _ _ _); [done|].
        apply post_ret, post_bind, post_emit, post_bind, post_ext.
        destruct (generate C _ _); [done|]. by apply post_ret.
      + apply post_ret, post_bind, post_emit, post_bind, post_ext.
        destruct (generate C _ _); [done|]. by apply post_ret. }
  intros [res|e] m2 l3 [-> Hres]; [|done]. specialize (Hres res eq_refl).
  eapply post_seq with (Q1 := fun r m2 l2 =>
    model m2 = model m1 /\ is_encoder_decoder m2 = is_encoder_decoder m1 /\
    _device m2 = _device m1 /\
    _default_attributed_fn_id m2 = _default_attributed_fn_id m1 /\
    (is_Return r = true -> opt_truthy (method a) = true \/ attribution_method m <> None)).
  { unfold post. rewrite get_attribution_method_run, Hbound.
    destruct (opt_truthy (method a)); cbn zeta.
    - destruct (attribution_method m) as [old|].
      + destruct (unhook C old) as [?|[]]; [done|].
        destruct (load C _); [done|]. cbn.
        destruct (override_default_attribution a); cbn; auto 10.
      + destruct (load C _); cbn; auto 10.
    - destruct (attribution_method m); cbn; repeat split; try done. intros _. by right. }
  intros [fa|e] m2 l4 (Hmod2 & Henc2 & Hdev2 & Hfn2 & Hmeth);
    [|split; [congruence|apply Hfail]].
  specialize (Hmeth eq_refl).
  eapply post_seq with (Q1 := fun r m3 l3 => m3 = m2 /\
    forall f, r = Return f -> forall k, attributed_fn a = Some (FnKey k) ->
      STEP_SCORES_MAP C !! k = Some f).
  { unfold post. rewrite get_attributed_fn_run.
    destruct (attributed_fn a) as [[k|f]|]; cbn.
    - destruct (STEP_SCORES_MAP C !! k) eqn:Hk; cbn; (split; [done|]); [|done].
      by intros ? [= <-] ? [= <-].
    - split; [done|]. by intros ? [= <-] ?.
    - destruct (STEP_SCORES_MAP C !! _); cbn; (split; [done|]); done. }
  intros [f|e] m3 l5 [-> Hf]; [|split; [congruence|apply Hfail]].
  specialize (Hf f eq_refl).
  apply post_bind, post_emit, post_bind, post_ext.
  destruct (extract_args C _ _ _ _) as [?|extracted];
    [split; [congruence|apply Hfail]|].
  apply post_ret. split; [congruence|].
  unfold resolved_locals; cbn [l_original_device l_attribute_target
    l_generate_from_target_prefix l_input_texts l_has_generated_texts
    l_generated_texts l_generation_args l_attributed_fn].
  split; [done|]. split; [done|]. split; [congruence|].
  split; [done|]. split; [done|]. split; [done|].
  split; [by destruct (generated_texts a)|].
  split; [|done].
  intros g Hg. split; [by apply Hlen|]. intros Hp.
  destruct (Hres g Hg Hp) as [-> Hw]. repeat split.
  intros Hsz. specialize (Hw Hsz). in_log.
Qed.
End Resolve.

Section Events.
Context {PyAny StepFn FeatureAttribution BatchEncoding StepOutputs Attributions : Type}.
Variable C : @Collaborators PyAny StepFn FeatureAttribution BatchEncoding StepOutputs Attributions.
Local Abbreviation Model := (@AttributionModel FeatureAttribution).
Local Abbreviation event := (@event PyAny StepFn FeatureAttribution BatchEncoding).
Local Abbreviation M := (@M PyAny StepFn FeatureAttribution BatchEncoding).
Implicit Types (m : Model) (l : list event) (P : event -> Prop).

Lemma all_bind {A B} P (x : M A) (f : A -> M B) m :
  post x m (fun r m1 l1 =>
    Forall P l1 /\ forall a, r = Return a -> post (f a) m1 (all_events P)) ->
  post (x ≫= f) m (all_events P).
Proof.
  intros H. apply post_bind. eapply post_mono; [exact H|].
  intros [a|e] m1 l1 [H1 H2]; [|done].
  eapply post_mono; [by apply H2|]. intros ??? H3. by apply Forall_app.
Qed.

Lemma all_seq {A B} P (x : M A) (f : A -> M B) m :
  post x m (all_events P) ->
  (forall a m1, post (f a) m1 (all_events P)) ->
  post (x ≫= f) m (all_events P).
Proof.
  intros H1 H2. apply all_bind. eapply post_mono; [exact H1|].
  intros ??? H. split; [exact H|]. intros. apply H2.
Qed.

Lemma all_ret {A} P (a : A) m : post (mret a) m (all_events P).
Proof. by apply post_ret, Forall_nil. Qed.
Lemma all_raise {A} P e m : post (raise (A := A) e) m (all_events P).
Proof. by apply post_raise, Forall_nil. Qed.
Lemma all_gets {A} P (g : Model -> A) m : post (gets g) m (all_events P).
Proof. by apply post_gets, Forall_nil. Qed.
Lemma all_lift {A} P (r : result A) m : post (lift r) m (all_events P).
Proof. by apply post_lift, Forall_nil. Qed.
Lemma all_ext {A} P (r : throws A) m : post (ext r) m (all_events P).
Proof. apply post_ext. destruct r; by apply Forall_nil. Qed.
Lemma all_emit P ev m : P ev -> post (emit ev) m (all_events P).
Proof. intros. apply post_emit. by repeat constructor. Qed.

Lemma device_setter_events P d m :
  (forall d, P (ModelTo d)) -> post (setattr (device_property C) d) m (all_events P).
Proof.
  intros HP. unfold post. rewrite device_setter_run.
  destruct (check_device C d) as [?|[]]; [by constructor|].
  destruct (model m); [|by constructor].
  destruct (model_to C d) as [?|[]]; by repeat constructor.
Qed.

Lemma get_attribution_method_events P meth ov m :
  (forall fa, P (Unhook fa)) -> (forall name, P (Load name)) ->
  post (get_attribution_method C meth ov) m (all_events P).
Proof.
  intros H1 H2. unfold post. rewrite get_attribution_method_run.
  destruct (opt_truthy meth); cbn zeta.
  - destruct (attribution_method m) as [old|].
    + destruct (unhook C old) as [?|[]]; [by repeat constructor|].
      destruct (load C _); by repeat constructor.
    + destruct (load C _); by repeat constructor.
  - destruct (attribution_method m); by constructor.
Qed.

Lemma get_attributed_fn_events P fn m : post (get_attributed_fn C fn) m (all_events P).
Proof.
  unfold post. rewrite get_attributed_fn_run.
  destruct (default _ fn); [destruct (STEP_SCORES_MAP C !! _)|]; by constructor.
Qed.

Ltac ev_step :=
  first
    [ apply all_ret | apply all_raise | apply all_gets | apply all_lift | apply all_ext
    | apply all_emit; solve [auto]
    | apply device_setter_events; solve [auto]
    | apply get_attribution_method_events; solve [auto]
    | apply get_attributed_fn_events
    | apply all_seq; [|intros ? ?] ].

Lemma attribute_resolve_events P a m :
  (forall msg, P (Warning msg)) -> (forall msg, P (Info msg)) ->
  (forall d, P (ModelTo d)) -> (forall fa, P (Unhook fa)) ->
  (forall name, P (Load name)) -> P ExtractArgs ->
  (generated_texts a <> None /\
     generate_from_target_prefix a && is_encoder_decoder m = false) \/
  ((forall t b1 b2 b3, P (Encode t b1 b2 b3)) /\ (forall e g, P (Generate e g))) ->
  post (attribute_resolve C a) m (all_events P).
Proof.
  intros HW HI HM HU HL HE HG. unfold attribute_resolve.
  apply all_bind. unfold when.
  destruct (negb _); [by apply post_raise|apply post_ret].
  split; [constructor|intros _ _].
  apply all_bind, post_gets. split; [constructor|intros ? ?; simplify_eq].
  apply all_bind, post_flag.
  split; [destruct (_ && negb _); by repeat constructor|intros ? _].
  apply all_bind, post_gets. split; [constructor|intros ? ?; simplify_eq].
  apply all_bind, post_flag. rewrite flag_value.
  split; [destruct (_ && negb _); by repeat constructor|intros ? ?; simplify_eq].
  apply all_seq; [ev_step|intros ? m0].
  apply all_seq; [destruct (device a); ev_step|intros _ m1].
  apply all_bind, post_lift. split; [constructor|intros [inputs targets] Hfmt].
  apply all_seq;
    [destruct (batch_size a) as [size|]; [destruct (size =? 0)|]; ev_step|intros _ m2].
  cbn [fst snd].
  apply all_seq; [|intros res m3; repeat ev_step].
  destruct targets as [targets|].
  - destruct (generate_from_target_prefix a && is_encoder_decoder m) eqn:Hp.
    + destruct HG as [[_ [=]]|[HG1 HG2]].
      repeat ev_step.
    + unfold when. destruct (negb _); repeat ev_step.
  - destruct HG as [[Hg _]|[HG1 HG2]].
    + exfalso. apply Hg. unfold format_input_texts in Hfmt.
      destruct (generated_texts a); [|done]. by destruct (_ =? _)%nat.
    + destruct (_ && _); repeat ev_step.
Qed.
End Events.

Section Dispatch.
Context {PyAny StepFn FeatureAttribution BatchEncoding StepOutputs Attributions : Type}.
Variable C : @Collaborators PyAny StepFn FeatureAttribution BatchEncoding StepOutputs Attributions.
Local Abbreviation Model := (@AttributionModel FeatureAttribution).
Local Abbreviation event := (@event PyAny StepFn FeatureAttribution BatchEncoding).
Local Abbreviation M := (@M PyAny StepFn FeatureAttribution BatchEncoding).
Local Abbreviation Locals := (@Locals PyAny StepFn FeatureAttribution).
Local Abbreviation Output := (@FeatureAttributionOutput PyAny Attributions).
Local Abbreviation Args := (@AttributeArgs PyAny StepFn).
Implicit Types (m : Model) (l : list event) (L : Locals) (a : Args).

Lemma quiet_Info msg : is_quiet (Info msg : event).
Proof. split; intros []. Qed.
Lemma quiet_ModelTo d : is_quiet (ModelTo d : event).
Proof. split; intros []. Qed.
Lemma quiet_Merge : is_quiet (MergeAttributions : event).
Proof. split; intros []. Qed.

Lemma post_force (c : bool) msg (v : option Z) m
    (Q : result (option Z) -> Model -> list event -> Prop) :
  Q (Return (if c then Some 1 else v)) m (if c then [Info msg] else []) ->
  post (if c then emit (Info msg);; mret (Some 1) else mret v) m Q.
Proof. by destruct c. Qed.

Lemma run_metadata_set L (out : Output) :
  run_metadata L
    (info_set "generate_from_target_prefix" (InfoBool (l_generate_from_target_prefix L))
      (info_set "constrained_decoding" (InfoBool (l_has_generated_texts L))
         (info_set "generation_args" (InfoArgs (l_generation_args L))
            (info_set "generated_texts" (InfoTexts (as_list (l_generated_texts L)))
               (info_set "input_texts" (InfoTexts (l_input_texts L)) out))))).
Proof.
  unfold run_metadata, info_set; cbn [info].
  repeat split; by simplify_map_eq.
Qed.

Lemma attribute_dispatch_post a L m1 :
  post (attribute_dispatch C a L) m1 (dispatched C a L m1).
Proof.
  unfold attribute_dispatch, dispatched, prefix_check.
  apply post_bind, post_gets.
  eapply post_seq with (Q1 := fun r m2 l2 =>
    m2 = m1 /\
    match (if is_encoder_decoder m1 then Return true
           else all_startswith (l_generated_texts L) 0 (l_input_texts L)) with
    | Return true =>
        Forall is_quiet l2 /\
        r = Return
          (if negb (is_encoder_decoder m1) && (1 <? length (l_input_texts L))%nat
              && (l_has_generated_texts L
                  || (not_None (attr_pos_start a) || not_None (attr_pos_end a)))
           then Some 1 else batch_size a)
    | Return false => r = Raise (AssertionError forced_generation_message) /\ l2 = []
    | Raise e => r = Raise e /\ l2 = []
    end).
  { destruct (is_encoder_decoder m1); cbn [negb].
    { apply post_ret. by repeat split. }
    apply post_bind, post_lift.
    destruct (all_startswith _ _ _) as [[]|e]; cbn [negb when]; [|by apply post_bind, post_raise|done].
    apply post_bind, post_ret, post_bind, post_force, post_force.
    split; [done|]. split.
    - destruct (_ && _), (_ && _); repeat constructor; apply quiet_Info.
    - f_equal. destruct (l_has_generated_texts L), (1 <? _)%nat,
        (not_None (attr_pos_start a)), (not_None (attr_pos_end a)); done. }
  intros r m2 l2 [-> H].
  destruct (if is_encoder_decoder m1 then _ else _) as [[]|e];
    [|by destruct H as [-> ->]|by destruct H as [-> ->]].
  destruct H as [Hq ->].
  apply post_bind, post_force, post_bind, post_emit, post_bind, post_ext.
  set (bs := if bool_decide _ then Some 1 else _).
  set (call := Build_PrepareArgs _ _ _ _ _ _ _ _ _ _ _ _ _ _ _).
  assert (Hbs : pa_batch_size call =
    if batch_size_forced (is_encoder_decoder m1) (l_has_generated_texts L)
         (length (l_input_texts L)) (attr_pos_start a) (attr_pos_end a)
         (method_name C (l_attribution_method L))
    then Some 1 else batch_size a).
  { cbn. unfold bs, batch_size_forced.
    destruct (bool_decide _); [by rewrite orb_true_r|]. rewrite orb_false_r.
    destruct (is_encoder_decoder m1), (l_has_generated_texts L), (1 <? _)%nat,
      (not_None (attr_pos_start a)), (not_None (attr_pos_end a)); done. }
  set (infos := (l2 ++ (if bool_decide (method_name C (l_attribution_method L) = "lime")
                        then [Info BatchedLimeUnsupported] else []))%list).
  assert (Hq1 : Forall is_quiet infos).
  { apply Forall_app. split; [done|].
    destruct (bool_decide _); repeat constructor; apply quiet_Info. }
  assert (Hl : forall tail,
    ([] ++ l2 ++ (if bool_decide (method_name C (l_attribution_method L) = "lime")
                  then [Info BatchedLimeUnsupported] else [])
        ++ [PrepareAndAttribute (l_attribution_method L) call] ++ tail)%list
    = (infos ++ PrepareAndAttribute (l_attribution_method L) call :: tail)%list).
  { intros tail. unfold infos. cbn [app]. by rewrite <- app_assoc. }
  assert (Hcall : pa_input_texts call = l_input_texts L /\
                  pa_generated_texts call = l_generated_texts L /\
                  pa_attribute_target call = l_attribute_target L) by done.
  destruct Hcall as (Hc1 & Hc2 & Hc3).
  clearbody infos call.
  destruct (prepare_and_attribute C _ call) as [w|outs].
  { exists infos, call, []. rewrite Hl. by repeat split. }
  apply post_bind, post_emit, post_bind, post_ext.
  destruct (merge_attributions C outs) as [w|out].
  { exists infos, call, [MergeAttributions]. rewrite Hl.
    repeat split; try done. repeat constructor; apply quiet_Merge. }
  set (out' := info_set _ _ _).
  eapply post_seq with (Q1 := fun r m2 l3 =>
    is_encoder_decoder m2 = is_encoder_decoder m1 /\ Forall is_quiet l3 /\
    (r = Return tt -> _device m2 = restored_device a L (_device m1))).
  { unfold restored_device, when.
    destruct (device a) as [d|]; [|by apply post_ret].
    destruct (l_original_device L) as [d0|]; cbn [opt_truthy];
      [|rewrite andb_false_r; by apply post_ret].
    destruct (str_truthy d && str_truthy d0); [|by apply post_ret].
    unfold post. rewrite device_setter_run.
    destruct (check_device C d0) as [?|[]]; [by repeat split|].
    destruct (model m1); [|by repeat split].
    destruct (model_to C d0) as [?|[]]; cbn;
      (repeat split; try done; repeat constructor; apply quiet_ModelTo). }
  intros [[]|e] m2 l3 (Henc & Hq3 & Hdev).
  - apply post_ret. exists infos, call, (MergeAttributions :: l3).
    rewrite app_nil_r. cbn [app] in *. rewrite Hl.
    split; [done|]. split; [done|].
    split; [constructor; [apply quiet_Merge|done]|].
    do 5 (split; [done|]). intros ? [= <-].
    split; [apply run_metadata_set|by apply Hdev].
  - exists infos, call, (MergeAttributions :: l3).
    cbn [app] in *. rewrite Hl.
    split; [done|]. split; [done|].
    split; [constructor; [apply quiet_Merge|done]|].
    by do 5 (split; [done|]).
Qed.
End Dispatch.

Section Attribute.
Context {PyAny StepFn FeatureAttribution BatchEncoding StepOutputs Attributions : Type}.
Variable C : @Collaborators PyAny StepFn FeatureAttribution BatchEncoding StepOutputs Attributions.
Local Abbreviation Model := (@AttributionModel FeatureAttribution).
Local Abbreviation event := (@event PyAny StepFn FeatureAttribution BatchEncoding).
Local Abbreviation M := (@M PyAny StepFn FeatureAttribution BatchEncoding).
Local Abbreviation Locals := (@Locals PyAny StepFn FeatureAttribution).
Local Abbreviation Output := (@FeatureAttributionOutput PyAny Attributions).
Local Abbreviation Args := (@AttributeArgs PyAny StepFn).
Implicit Types (m : Model) (l : list event) (L : Locals) (a : Args).

(** [attribute] is resolution followed by dispatch. *)
Lemma attribute_raised a m e m1 l1 :
  attribute_resolve C a m = (Raise e, m1, l1) ->
  attribute C a m = (Raise e, m1, l1).
Proof. intros E. unfold attribute. by apply bind_Raise. Qed.

Lemma attribute_resolved a m L m1 l1 :
  attribute_resolve C a m = (Return L, m1, l1) ->
  attribute C a m = after l1 (attribute_dispatch C a L m1).
Proof. intros E. unfold attribute. by apply bind_Return. Qed.

(** The two halves put together: what any run of [attribute] looks like. *)
Lemma attribute_cases a m :
  (exists e m1 l1,
      attribute_resolve C a m = (Raise e, m1, l1) /\
      attribute C a m = (Raise e, m1, l1) /\
      resolve_failure C a m e) \/
  (exists L m1 l1 l2,
      attribute_resolve C a m = (Return L, m1, l1) /\
      is_encoder_decoder m1 = is_encoder_decoder m /\
      resolved_locals C a m L m1 l1 /\
      events (attribute C a m) = l1 ++ l2 /\
      dispatched C a L m1 (outcome (attribute C a m)) (final (attribute C a m)) l2).
Proof.
  destruct (attribute_resolve C a m) as [[[L|e] m1] l1] eqn:E.
  - right. exists L, m1, l1, (events (attribute_dispatch C a L m1)).
    destruct (post_run _ _ _ _ _ _ (attribute_resolve_locals C a m) E) as [Henc HL].
    rewrite (attribute_resolved _ _ _ _ _ E).
    do 4 (split; [done|]). apply attribute_dispatch_post.
  - left. exists e, m1, l1.
    destruct (post_run _ _ _ _ _ _ (attribute_resolve_locals C a m) E) as [_ He].
    by rewrite (attribute_raised _ _ _ _ _ E).
Qed.

Lemma quiet_not_dispatch l : Forall is_quiet l -> Forall (fun ev => ~ is_dispatch ev) l.
Proof. intros H. eapply Forall_impl; [exact H|]. by intros ? []. Qed.

Lemma resolve_no_dispatch a m :
  Forall (fun ev => ~ is_dispatch ev) (events (attribute_resolve C a m)).
Proof. apply (attribute_resolve_events C (fun ev => ~ is_dispatch ev)); auto. Qed.


Lemma dispatched_events a L m1 r m2 l2 fa call :
  dispatched C a L m1 r m2 l2 ->
  PrepareAndAttribute fa call ∈ l2 ->
  fa = l_attribution_method L /\
  prefix_check L m1 = Return true /\
  pa_input_texts call = l_input_texts L /\
  pa_generated_texts call = l_generated_texts L /\
  pa_attribute_target call = l_attribute_target L /\
  pa_batch_size call =
    (if batch_size_forced (is_encoder_decoder m1) (l_has_generated_texts L)
          (length (l_input_texts L)) (attr_pos_start a) (attr_pos_end a)
          (method_name C (l_attribution_method L))
     then Some 1 else batch_size a).
Proof.
  unfold dispatched.
  destruct (prefix_check L m1) as [[]|e];
    [|intros (_ & _ & ->); by intros ?%elem_of_nil..].
  intros (infos & call' & tail & -> & Hi & Ht & H1 & H2 & H3 & H4 & _).
  rewrite elem_of_app, elem_of_cons.
  intros [Hin|[[= -> ->]|Hin]]; [|done|].
  - rewrite Forall_forall in Hi. by destruct (Hi _ Hin) as [[] _].
  - rewrite Forall_forall in Ht. by destruct (Ht _ Hin) as [[] _].
Qed.


(** Every dispatch of a run of [attribute], with the locals it was made
    from. *)
Lemma attribute_dispatches a m fa call :
  PrepareAndAttribute fa call ∈ events (attribute C a m) ->
  exists L m1 l1,
    attribute_resolve C a m = (Return L, m1, l1) /\
    is_encoder_decoder m1 = is_encoder_decoder m /\
    resolved_locals C a m L m1 l1 /\
    fa = l_attribution_method L /\
    prefix_check L m1 = Return true /\
    pa_input_texts call = l_input_texts L /\
    pa_generated_texts call = l_generated_texts L /\
    pa_attribute_target call = l_attribute_target L /\
    pa_batch_size call =
      (if batch_size_forced (is_encoder_decoder m1) (l_has_generated_texts L)
            (length (l_input_texts L)) (attr_pos_start a) (attr_pos_end a)
            (method_name C (l_attribution_method L))
       then Some 1 else batch_size a).
Proof.
  intros Hin.
  pose proof (resolve_no_dispatch a m) as Hnd. rewrite Forall_forall in Hnd.
  destruct (attribute_cases a m) as
    [(e & m1 & l1 & E & Ea & _)|(L & m1 & l1 & l2 & E & Henc & HL & El & Hd)].
  - rewrite Ea in Hin. rewrite E in Hnd. by destruct (Hnd _ Hin).
  - rewrite El, elem_of_app in Hin. destruct Hin as [Hin|Hin].
    { rewrite E in Hnd. by destruct (Hnd _ Hin). }
    exists L, m1, l1. do 3 (split; [done|]).
    by eapply dispatched_events.
Qed.

(** A run that raised during resolution dispatched nothing. *)
Lemma attribute_no_dispatch_raised a m e m1 l1 :
  attribute_resolve C a m = (Raise e, m1, l1) ->
  Forall (fun ev => ~ is_dispatch ev) (events (attribute C a m)).
Proof.
  intros E. rewrite (attribute_raised _ _ _ _ _ E).
  pose proof (resolve_no_dispatch a m) as H. by rewrite E in H.
Qed.
End Attribute.

(** ** The prefix check *)

Lemma get_below (s : string) (idx j : nat) :
  is_Some (String.get idx s) -> (j <= idx)%nat -> is_Some (String.get j s).
Proof.
  revert idx j. induction s as [|c s IH]; intros idx j; cbn.
  - by intros [? [=]].
  - destruct j as [|j]; [by eauto|]. destruct idx as [|idx]; [lia|].
    intros H Hle. apply (IH idx); [done|lia].
Qed.

Lemma getitem_below (t : TextInput) (idx j : nat) :
  is_Some (getitem t idx) -> (j <= idx)%nat -> is_Some (getitem t j).
Proof.
  destruct t as [s|l]; cbn.
  - intros H Hle. destruct (String.get idx s) eqn:E; [|by destruct H].
    destruct (get_below s idx j) as [c Hc]; [by rewrite E|done|]. by rewrite Hc.
  - intros H%lookup_lt_is_Some Hle. apply lookup_lt_is_Some. lia.
Qed.

Lemma all_startswith_false (generated : TextInput) (inputs : list string) (k i : nat) x g :
  inputs !! i = Some x ->
  getitem generated (k + i) = Some g ->
  String.prefix x g = false ->
  all_startswith generated k inputs = Return false.
Proof.
  revert k i. induction inputs as [|y rest IH]; intros k i Hx Hg Hp; [done|].
  cbn [all_startswith].
  destruct i as [|i]; cbn in Hx.
  - simplify_eq. rewrite Nat.add_0_r in Hg. by rewrite Hg, Hp.
  - destruct (getitem_below generated (k + S i) k) as [g0 Hg0]; [by rewrite Hg|lia|].
    rewrite Hg0. destruct (String.prefix y g0); [|done].
    apply (IH (S k) i); [done| |done]. by rewrite <- Hg, Nat.add_succ_comm.
Qed.

Lemma all_startswith_true (generated : TextInput) (inputs : list string) (k : nat) :
  all_startswith generated k inputs = Return true <->
  forall i x, inputs !! i = Some x ->
    exists g, getitem generated (k + i) = Some g /\ String.prefix x g = true.
Proof.
  revert k. induction inputs as [|y rest IH]; intros k; cbn [all_startswith].
  - split; [by intros _ ?? [=]|done].
  - split.
    + destruct (getitem generated k) as [g0|] eqn:Hg0; [|done].
      destruct (String.prefix y g0) eqn:Hp; [|done].
      intros H i x Hx. destruct i as [|i]; cbn in Hx.
      * simplify_eq. rewrite Nat.add_0_r. eauto.
      * rewrite <- Nat.add_succ_comm. by apply IH.
    + intros H. destruct (H 0%nat y eq_refl) as (g0 & Hg0 & Hp).
      rewrite Nat.add_0_r in Hg0. rewrite Hg0, Hp. apply IH.
      intros i x Hx. rewrite Nat.add_succ_comm. by apply H.
Qed.

Section Claims.
Context {PyAny StepFn FeatureAttribution BatchEncoding StepOutputs Attributions : Type}.
Variable C : @Collaborators PyAny StepFn FeatureAttribution BatchEncoding StepOutputs Attributions.
Local Abbreviation Model := (@AttributionModel FeatureAttribution).
Local Abbreviation event := (@event PyAny StepFn FeatureAttribution BatchEncoding).
Local Abbreviation M := (@M PyAny StepFn FeatureAttribution BatchEncoding).
Local Abbreviation Locals := (@Locals PyAny StepFn FeatureAttribution).
Local Abbreviation Output := (@FeatureAttributionOutput PyAny Attributions).
Local Abbreviation Args := (@AttributeArgs PyAny StepFn).
Implicit Types (m : Model) (l : list event) (L : Locals) (a : Args).

Lemma attribute_empty_input a m :
  text_truthy (input_texts a) = false ->
  attribute C a m = (Raise empty_input_error, m, []).
Proof.
  intros Ht. apply attribute_raised. unfold attribute_resolve.
  apply bind_Raise. by rewrite Ht.
Qed.

(** C1 (as amended).  After a call of [attribute] with a device, the
    device of the model is the one it had before the call when the call
    returns normally and both the override and the earlier device are
    non-empty strings (when there was no earlier device the override stays
    in place); when the call fails on the empty-input validation the
    object is untouched.  Nothing is stated for a failure raised after the
    override has been applied. *)
Theorem attribute_device_round_trip a m d :
  device a = Some d ->
  (text_truthy (input_texts a) = false ->
     attribute C a m = (Raise empty_input_error, m, [])) /\
  (forall out, outcome (attribute C a m) = Return out ->
     _device (final (attribute C a m)) =
       if str_truthy d && opt_truthy (_device m) then _device m else Some d).
Proof.
  intros Hd. split; [apply attribute_empty_input|].
  intros out Hout.
  destruct (attribute_cases C a m) as
    [(e & m1 & l1 & E & Ea & _)|(L & m1 & l1 & l2 & E & Henc & HL & El & Hdis)].
  { rewrite Ea in Hout. done. }
  destruct HL as (_ & Horig & Hdev & _).
  unfold dispatched in Hdis.
  destruct (prefix_check L m1) as [[]|e];
    [|destruct Hdis as (Hr & _); congruence..].
  destruct Hdis as (_ & _ & _ & _ & _ & _ & _ & _ & _ & _ & _ & Hret).
  destruct (Hret out Hout) as [_ ->].
  unfold restored_device. rewrite Horig, Hdev, Hd. cbn [opt_truthy]. done.
Qed.

(** C2.  The batch size handed to [prepare_and_attribute] is 1 exactly in
    the three cases of [batch_size_forced] (decoder-only with explicit
    targets and several inputs; decoder-only with several inputs and an
    attribution position; a method named "lime") and the requested size
    otherwise; and whenever resolution and the decoder-only precondition
    pass, the routine is invoked with that size: no override raises. *)
Theorem attribute_batch_size_policy a m :
  (forall fa call, PrepareAndAttribute fa call ∈ events (attribute C a m) ->
     pa_batch_size call = effective_batch_size a (is_encoder_decoder m) (method_name C fa)) /\
  (forall L m1 l1,
     attribute_resolve C a m = (Return L, m1, l1) ->
     prefix_check L m1 = Return true ->
     exists call,
       PrepareAndAttribute (l_attribution_method L) call ∈ events (attribute C a m) /\
       pa_batch_size call =
         effective_batch_size a (is_encoder_decoder m)
           (method_name C (l_attribution_method L))).
Proof.
  assert (Hsize : forall L m1 l1,
    is_encoder_decoder m1 = is_encoder_decoder m ->
    resolved_locals C a m L m1 l1 ->
    (if batch_size_forced (is_encoder_decoder m1) (l_has_generated_texts L)
          (length (l_input_texts L)) (attr_pos_start a) (attr_pos_end a)
          (method_name C (l_attribution_method L))
     then Some 1 else batch_size a)
    = effective_batch_size a (is_encoder_decoder m)
        (method_name C (l_attribution_method L))).
  { intros L m1 l1 Henc (_ & _ & _ & _ & _ & Hin & Hhas & _).
    unfold effective_batch_size. by rewrite Henc, Hin, Hhas. }
  split.
  - intros fa call Hin.
    destruct (attribute_dispatches C a m fa call Hin) as
      (L & m1 & l1 & _ & Henc & HL & -> & _ & _ & _ & _ & ->).
    by eapply Hsize.
  - intros L m1 l1 E Hcheck.
    destruct (attribute_cases C a m) as
      [(e & m1' & l1' & E' & _)|(L' & m1' & l1' & l2 & E' & Henc & HL & El & Hdis)];
      [congruence|].
    rewrite E in E'. simplify_eq.
    unfold dispatched in Hdis. rewrite Hcheck in Hdis.
    destruct Hdis as (infos & call & tail & -> & _ & _ & _ & _ & _ & Hbs & _).
    exists call. split; [rewrite El; in_log|].
    rewrite Hbs. by eapply Hsize.
Qed.


(** C5.  For a model that is not encoder-decoder, once texts, method and
    attributed function are resolved: if some generated text does not start
    with its paired input text, [attribute] raises the assertion "Forced
    generations with decoder-only models must start with the input texts."
    and nothing was dispatched; if every input text has a generated text
    that starts with it, the attribution method is invoked. *)
Theorem attribute_forced_generation_prefix a m L m1 l1 :
  attribute_resolve C a m = (Return L, m1, l1) ->
  is_encoder_decoder m = false ->
  (l_input_texts L = as_list (input_texts a) /\
   forall g, generated_texts a = Some g -> l_generated_texts L = Texts (as_list g)) /\
  ((exists idx x g,
      l_input_texts L !! idx = Some x /\
      getitem (l_generated_texts L) idx = Some g /\
      String.prefix x g = false) ->
   attribute C a m = (Raise (AssertionError forced_generation_message), m1, l1) /\
   Forall (fun ev => ~ is_dispatch ev) l1) /\
  ((forall idx x, l_input_texts L !! idx = Some x ->
      exists g, getitem (l_generated_texts L) idx = Some g /\ String.prefix x g = true) ->
   exists call,
     PrepareAndAttribute (l_attribution_method L) call ∈ events (attribute C a m)).
Proof.
  intros E Hdec.
  destruct (attribute_cases C a m) as
    [(e & m1' & l1' & E' & _)|(L' & m1' & l1' & l2 & E' & Henc & HL & El & Hdis)];
    [congruence|].
  rewrite E in E'. simplify_eq.
  split.
  { destruct HL as (_ & _ & _ & _ & Hflag & Hin & _ & Htargets & _).
    split; [done|]. intros g Hg. apply Htargets; [done|].
    by rewrite Hflag, Hdec, andb_false_r. }
  unfold dispatched, prefix_check in Hdis. rewrite Henc, Hdec in Hdis.
  split.
  - intros (idx & x & g & Hx & Hg & Hp).
    rewrite (all_startswith_false _ _ 0 idx x g Hx Hg Hp) in Hdis.
    destruct Hdis as (Hr & Hm & ->). rewrite app_nil_r in El.
    split.
    + destruct (attribute C a m) as [[r m2] l]. cbn in *. by subst.
    + pose proof (resolve_no_dispatch C a m) as H. by rewrite E in H.
  - intros Hall. apply (all_startswith_true _ _ 0) in Hall.
    rewrite Hall in Hdis.
    destruct Hdis as (infos & call & tail & -> & _).
    exists call. rewrite El. in_log.
Qed.
End Claims.

Section Claims.
Context {PyAny StepFn FeatureAttribution BatchEncoding StepOutputs Attributions : Type}.
Variable C : @Collaborators PyAny StepFn FeatureAttribution BatchEncoding StepOutputs Attributions.
Local Abbreviation Model := (@AttributionModel FeatureAttribution).
Local Abbreviation event := (@event PyAny StepFn FeatureAttribution BatchEncoding).
Local Abbreviation M := (@M PyAny StepFn FeatureAttribution BatchEncoding).
Local Abbreviation Locals := (@Locals PyAny StepFn FeatureAttribution).
Local Abbreviation Output := (@FeatureAttributionOutput PyAny Attributions).
Local Abbreviation Args := (@AttributeArgs PyAny StepFn).
Implicit Types (m : Model) (l : list event) (L : Locals) (a : Args).

(** C6.  [attribute] raises at once on an empty input (the object is
    untouched and nothing happened), and raises whenever the number of
    target texts differs from the number of input texts: with a length
    mismatch error when the input is not empty and the device override, if
    any, was accepted; in both cases nothing is dispatched. *)
Theorem attribute_rejects_empty_and_mismatched a m :
  (text_truthy (input_texts a) = false ->
     attribute C a m = (Raise empty_input_error, m, [])) /\
  (forall g, generated_texts a = Some g ->
     length (as_list g) <> length (as_list (input_texts a)) ->
     (exists e, outcome (attribute C a m) = Raise e /\
        (text_truthy (input_texts a) = true ->
         device_override_accepted C a m ->
         e = LengthMismatchError (length (as_list (input_texts a))) (length (as_list g)))) /\
     Forall (fun ev => ~ is_dispatch ev) (events (attribute C a m))).
Proof.
  split; [apply attribute_empty_input|].
  intros g Hg Hlen.
  destruct (attribute_cases C a m) as
    [(e & m1 & l1 & E & Ea & He)|(L & m1 & l1 & l2 & E & Henc & HL & El & Hdis)].
  - split; [|by eapply attribute_no_dispatch_raised].
    exists e. rewrite Ea. split; [done|]. intros Ht Hdev.
    apply (He Ht Hdev). unfold format_input_texts. rewrite Hg.
    destruct (Nat.eqb_spec (length (as_list (input_texts a))) (length (as_list g)));
      [congruence|done].
  - destruct HL as (_ & _ & _ & _ & _ & _ & _ & Htargets & _).
    by destruct (Htargets g Hg) as [? _].
Qed.

(** C8.  With no method name (none, or the empty string) and no method
    bound, [get_attribution_method] raises [MissingAttributionMethodError]
    and [attribute] returns nothing; with a method name or a bound method
    that error is not raised: the bound method is returned, or the method
    the loader gives for the name. *)
Theorem get_attribution_method_missing meth ov m :
  (opt_truthy meth = false -> attribution_method m = None ->
     get_attribution_method C meth ov m = (Raise MissingAttributionMethodError, m, []) /\
     forall a, method a = meth -> exists e, outcome (attribute C a m) = Raise e) /\
  (opt_truthy meth = true \/ attribution_method m <> None ->
     outcome (get_attribution_method C meth ov m) <> Raise MissingAttributionMethodError /\
     (forall bound, opt_truthy meth = false -> attribution_method m = Some bound ->
        get_attribution_method C meth ov m = (Return bound, m, [])) /\
     (forall name fa, meth = Some name -> opt_truthy meth = true ->
        (forall old, attribution_method m = Some old -> unhook C old = inr tt) ->
        load C name = inr fa ->
        outcome (get_attribution_method C meth ov m) = Return fa)).
Proof.
  split.
  - intros Hm Hb. split.
    { by rewrite get_attribution_method_run, Hm, Hb. }
    intros a <-.
    destruct (attribute_cases C a m) as
      [(e & m1 & l1 & E & Ea & He)|(L & m1 & l1 & l2 & E & Henc & HL & El & Hdis)].
    + exists e. by rewrite Ea.
    + destruct HL as (_ & _ & _ & _ & _ & _ & _ & _ & [?|?] & _); congruence.
  - intros Hor. rewrite get_attribution_method_run. repeat split.
    + destruct (opt_truthy meth); cbn zeta.
      * destruct (attribution_method m) as [old|];
          [destruct (unhook C old) as [?|[]]; [done|]|]; by destruct (load C _).
      * destruct (attribution_method m); [done|]. by destruct Hor.
    + intros bound -> ->. done.
    + intros name fa -> Ht Hun Hload. rewrite Ht. cbn.
      destruct (attribution_method m) as [old|].
      * by rewrite (Hun old eq_refl), Hload.
      * by rewrite Hload.
Qed.

(** C9 (as amended).  [get_attribution_method] with a method name: a
    method bound before is unhooked first, whatever
    [override_default_attribution] says; then the named method is loaded.
    The field [attribution_method] takes the loaded method when the
    override is set or nothing was bound, and is unchanged otherwise. *)
Theorem get_attribution_method_rebinding name ov m :
  str_truthy name = true ->
  (forall old, attribution_method m = Some old -> unhook C old = inr tt) ->
  let run := get_attribution_method C (Some name) ov m in
  events run = from_option (fun old => [Unhook old]) [] (attribution_method m) ++ [Load name] /\
  outcome run = match load C name with
                | inr fa => Return fa
                | inl what => Raise (External what)
                end /\
  attribution_method (final run) =
    match load C name with
    | inr fa => if ov || negb (not_None (attribution_method m))
                then Some fa else attribution_method m
    | inl _ => attribution_method m
    end.
Proof.
  intros Ht Hun run. unfold run. rewrite get_attribution_method_run.
  cbn. rewrite Ht.
  destruct (attribution_method m) as [old|] eqn:Hb.
  - rewrite (Hun old eq_refl).
    destruct (load C name); [done|]. destruct ov; cbn; by rewrite ?Hb.
  - destruct (load C name); cbn; by rewrite ?Hb, ?orb_true_r.
Qed.
End Claims.

Section Flags.
Context {PyAny StepFn FeatureAttribution BatchEncoding StepOutputs Attributions : Type}.
Variable C : @Collaborators PyAny StepFn FeatureAttribution BatchEncoding StepOutputs Attributions.
Local Abbreviation Model := (@AttributionModel FeatureAttribution).
Local Abbreviation event := (@event PyAny StepFn FeatureAttribution BatchEncoding).
Local Abbreviation M := (@M PyAny StepFn FeatureAttribution BatchEncoding).
Local Abbreviation Locals := (@Locals PyAny StepFn FeatureAttribution).
Local Abbreviation Output := (@FeatureAttributionOutput PyAny Attributions).
Local Abbreviation Args := (@AttributeArgs PyAny StepFn).
Implicit Types (m : Model) (l : list event) (L : Locals) (a : Args).

Lemma run_bind_gets {A B} (g : Model -> A) (f : A -> M B) m :
  (gets g ≫= f) m = f (g m) m.
Proof. rewrite (bind_Return _ f m (g m) m []); [apply after_nil|done]. Qed.


End Flags.

(** ** The statements on concrete calls *)

(** C1, as stated, fails: a call with a device that raises for want of an
    attribution method leaves the model on the override, and a call on a
    model without device returns with the override in place. *)
Lemma attribute_device_not_restored :
  (outcome (attribute Demo.collaborators Demo.cake_on_cpu Demo.unbound)
     = Raise MissingAttributionMethodError /\
   _device Demo.unbound = Some "cuda" /\
   _device (final (attribute Demo.collaborators Demo.cake_on_cpu Demo.unbound))
     = Some "cpu") /\
  (is_Return (outcome (attribute Demo.collaborators Demo.cake_saliency_on_cpu Demo.fresh))
     = true /\
   _device Demo.fresh = None /\
   _device (final (attribute Demo.collaborators Demo.cake_saliency_on_cpu Demo.fresh))
     = Some "cpu").
Proof. vm_compute. by repeat split. Qed.

Lemma attribute_device_round_trip_witness :
  device Demo.cake_on_cpu = Some "cpu" /\
  _device (final (attribute Demo.collaborators Demo.cake_on_cpu Demo.gpt)) = Some "cuda".
Proof.
  split; [reflexivity|].
  destruct (attribute_device_round_trip Demo.collaborators Demo.cake_on_cpu Demo.gpt "cpu"
              eq_refl) as [_ H].
  erewrite H; [reflexivity|vm_compute; reflexivity].
Defined.

Lemma attribute_batch_size_policy_witness :
  exists call,
    PrepareAndAttribute "integrated_gradients" call
      ∈ events (attribute Demo.collaborators Demo.two_examples Demo.gpt) /\
    batch_size Demo.two_examples = Some 4 /\
    pa_batch_size call = Some 1.
Proof.
  destruct (attribute_batch_size_policy Demo.collaborators Demo.two_examples Demo.gpt)
    as [_ H].
  edestruct H as (call & Hin & Hsize); [vm_compute; reflexivity|vm_compute; reflexivity|].
  exists call. split; [exact Hin|]. split; [reflexivity|exact Hsize].
Defined.


Lemma attribute_forced_generation_prefix_witness :
  is_encoder_decoder Demo.gpt = false /\
  outcome (attribute Demo.collaborators Demo.cake_unrelated_target Demo.gpt)
    = Raise (AssertionError forced_generation_message).
Proof.
  split; [reflexivity|].
  destruct (attribute_resolve Demo.collaborators Demo.cake_unrelated_target Demo.gpt)
    as [[r m1] l1] eqn:E.
  destruct r as [L|e]; [|vm_compute in E; discriminate E].
  destruct (attribute_forced_generation_prefix Demo.collaborators
              Demo.cake_unrelated_target Demo.gpt L m1 l1 E eq_refl) as (_ & H & _).
  destruct H as [-> _]; [|reflexivity].
  exists 0%nat. vm_compute in E. injection E as <- <- <-.
  eexists _, _. vm_compute. by repeat split.
Defined.

Lemma attribute_rejects_empty_and_mismatched_witness :
  attribute Demo.collaborators Demo.no_input Demo.gpt
    = (Raise empty_input_error, Demo.gpt, []) /\
  outcome (attribute Demo.collaborators Demo.mismatched Demo.gpt)
    = Raise (LengthMismatchError 2 1).
Proof.
  split.
  - exact (proj1 (attribute_rejects_empty_and_mismatched Demo.collaborators
                    Demo.no_input Demo.gpt) eq_refl).
  - destruct (proj2 (attribute_rejects_empty_and_mismatched Demo.collaborators
                       Demo.mismatched Demo.gpt) (Text "how much is it") eq_refl)
      as [(e & He & Hkind) _]; [vm_compute; discriminate|].
    rewrite He. f_equal. apply Hkind; reflexivity.
Defined.

Lemma get_attribution_method_missing_witness :
  get_attribution_method Demo.collaborators None false Demo.unbound
    = (Raise MissingAttributionMethodError, Demo.unbound, []) /\
  outcome (get_attribution_method Demo.collaborators (Some "saliency") false Demo.unbound)
    = Return "saliency".
Proof.
  split.
  - exact (proj1 (proj1 (get_attribution_method_missing Demo.collaborators None false
                           Demo.unbound) eq_refl eq_refl)).
  - destruct (proj2 (get_attribution_method_missing Demo.collaborators (Some "saliency")
                       false Demo.unbound) (or_introl eq_refl)) as (_ & _ & H).
    apply (H "saliency"); [reflexivity|reflexivity|discriminate|reflexivity].
Defined.

(** C9, as stated, fails: a one-off method unhooks the bound method, which
    stays bound. *)
Lemma get_attribution_method_one_off_unhooks :
  Unhook "integrated_gradients"
    ∈ events (get_attribution_method Demo.collaborators (Some "saliency") false Demo.gpt) /\
  attribution_method
    (final (get_attribution_method Demo.collaborators (Some "saliency") false Demo.gpt))
    = Some "integrated_gradients".
Proof. vm_compute. split; [|reflexivity]. apply list_elem_of_here. Qed.

Lemma get_attribution_method_rebinding_witness :
  str_truthy "saliency" = true /\
  events (get_attribution_method Demo.collaborators (Some "saliency") true Demo.gpt)
    = [Unhook "integrated_gradients"; Load "saliency"] /\
  attribution_method
    (final (get_attribution_method Demo.collaborators (Some "saliency") true Demo.gpt))
    = Some "saliency".
Proof.
  split; [reflexivity|].
  destruct (get_attribution_method_rebinding Demo.collaborators "saliency" true Demo.gpt
              eq_refl) as (H1 & _ & H3); [reflexivity|].
  split; [exact H1|exact H3].
Defined.

(** ** What every run keeps *)

Section Kept.
Context {PyAny StepFn FeatureAttribution BatchEncoding StepOutputs Attributions : Type}.
Variable C : @Collaborators PyAny StepFn FeatureAttribution BatchEncoding StepOutputs Attributions.
Local Abbreviation Model := (@AttributionModel FeatureAttribution).
Local Abbreviation event := (@event PyAny StepFn FeatureAttribution BatchEncoding).
Local Abbreviation M := (@M PyAny StepFn FeatureAttribution BatchEncoding).
Local Abbreviation Locals := (@Locals PyAny StepFn FeatureAttribution).
Local Abbreviation Output := (@FeatureAttributionOutput PyAny Attributions).
Local Abbreviation Args := (@AttributeArgs PyAny StepFn).
Implicit Types (m : Model) (l : list event) (L : Locals) (a : Args).

Variable P : event -> Prop.
Variable I : Model -> Prop.
Variable E : exn -> Prop.

Lemma kept_bind {A B} (x : M A) (f : A -> M B) m :
  post x m (fun r m1 l1 =>
    Forall P l1 /\
    match r with
    | Return v => post (f v) m1 (kept P I E)
    | Raise e => I m1 /\ E e
    end) ->
  post (x ≫= f) m (kept P I E).
Proof.
  intros H. apply post_bind. eapply post_mono; [exact H|].
  intros [v|e] m1 l1 [H1 H2]; [|destruct H2; by repeat split].
  eapply post_mono; [exact H2|]. intros r m2 l2 (H3 & H4 & H5).
  split; [by apply Forall_app|done].
Qed.

Lemma kept_seq {A B} (x : M A) (f : A -> M B) m :
  post x m (kept P I E) ->
  (forall v m1, I m1 -> post (f v) m1 (kept P I E)) ->
  post (x ≫= f) m (kept P I E).
Proof.
  intros H1 H2. apply kept_bind. eapply post_mono; [exact H1|].
  intros [v|e] m1 l1 (H3 & H4 & H5); (split; [done|]); [by apply H2|done].
Qed.

Lemma kept_ret {A} (v : A) m : I m -> post (mret v) m (kept P I E).
Proof. intros. apply post_ret. by repeat split. Qed.
Lemma kept_raise {A} e m : I m -> E e -> post (raise (A := A) e) m (kept P I E).
Proof. intros. apply post_raise. by repeat split. Qed.
Lemma kept_gets {A} (g : Model -> A) m : I m -> post (gets g) m (kept P I E).
Proof. intros. apply post_gets. by repeat split. Qed.
Lemma kept_emit ev m : I m -> P ev -> post (emit ev) m (kept P I E).
Proof. intros. apply post_emit. repeat split; [by repeat constructor|done]. Qed.
Lemma kept_ext {A} (r : throws A) m :
  I m -> (forall w, E (External w)) -> post (ext r) m (kept P I E).
Proof. intros. apply post_ext. destruct r; by repeat split. Qed.

Lemma kept_flag (c v : bool) w m :
  I m -> P (Warning w) ->
  post (if c then emit (Warning w);; mret false else mret v) m (kept P I E).
Proof. intros. apply post_flag. destruct c; repeat split; by repeat constructor. Qed.

Lemma kept_force (c : bool) msg (v : option Z) m :
  I m -> P (Info msg) ->
  post (if c then emit (Info msg);; mret (Some 1) else mret v) m (kept P I E).
Proof. intros. apply post_force. destruct c; repeat split; by repeat constructor. Qed.

Lemma device_setter_kept d m :
  I (final (setattr (device_property C) d m)) ->
  P (ModelTo d) -> (forall w, E (External w)) ->
  post (setattr (device_property C) d) m (kept P I E).
Proof.
  intros HI HP HE. unfold post, kept. split; [|split; [done|]].
  - rewrite device_setter_run.
    destruct (check_device C d) as [?|[]]; [constructor|].
    destruct (model m); [|constructor].
    destruct (model_to C d) as [?|[]]; by repeat constructor.
  - rewrite device_setter_run.
    destruct (check_device C d) as [?|[]]; [apply HE|].
    destruct (model m); [|done]. destruct (model_to C d) as [?|[]]; [apply HE|done].
Qed.

Ltac kfin :=
  cbn [outcome final events fst snd];
  repeat split; try done;
  repeat (apply Forall_cons; split); try apply Forall_nil; auto.

Lemma get_attribution_method_kept meth ov m :
  I m ->
  (opt_truthy meth = true ->
   ov || negb (not_None (attribution_method m)) = true ->
   forall fa, I (set_attribution_method (Some fa) m)) ->
  (opt_truthy meth = true -> (forall fa, P (Unhook fa)) /\ forall name, P (Load name)) ->
  (forall w, E (External w)) ->
  (opt_truthy meth = false -> attribution_method m = None ->
   E MissingAttributionMethodError) ->
  post (get_attribution_method C meth ov) m (kept P I E).
Proof.
  intros HI Hset HP HE Hmiss. unfold post, kept. rewrite get_attribution_method_run.
  destruct (opt_truthy meth); cbn zeta.
  - destruct (HP eq_refl) as [HU HL]. specialize (Hset eq_refl).
    destruct (attribution_method m) as [old|]; cbn in Hset.
    + destruct (unhook C old) as [?|[]]; [kfin|].
      destruct (load C (default "" meth)); [kfin|]. cbn.
      rewrite orb_false_r in Hset. destruct ov; kfin.
    + rewrite orb_true_r in Hset. specialize (Hset eq_refl).
      destruct (load C (default "" meth)); kfin.
  - destruct (attribution_method m) eqn:Hb; cbn; kfin.
Qed.

Lemma get_attributed_fn_kept fn m :
  I m ->
  (forall key, (forall k, fn = Some (FnKey k) -> k = key) ->
     STEP_SCORES_MAP C !! key = None -> E (unknown_function key)) ->
  post (get_attributed_fn C fn) m (kept P I E).
Proof.
  intros HI HE. unfold post, kept. rewrite get_attributed_fn_run.
  destruct (default _ fn) as [key|f] eqn:Hfn;
    [destruct (STEP_SCORES_MAP C !! key) eqn:Hkey|]; cbn; try kfin.
  apply HE; [|done]. intros k ->. cbn in Hfn. congruence.
Qed.
End Kept.

Section KeptByAttribute.
Context {PyAny StepFn FeatureAttribution BatchEncoding StepOutputs Attributions : Type}.
Variable C : @Collaborators PyAny StepFn FeatureAttribution BatchEncoding StepOutputs Attributions.
Local Abbreviation Model := (@AttributionModel FeatureAttribution).
Local Abbreviation event := (@event PyAny StepFn FeatureAttribution BatchEncoding).
Local Abbreviation M := (@M PyAny StepFn FeatureAttribution BatchEncoding).
Local Abbreviation Locals := (@Locals PyAny StepFn FeatureAttribution).
Local Abbreviation Output := (@FeatureAttributionOutput PyAny Attributions).
Local Abbreviation Args := (@AttributeArgs PyAny StepFn).
Implicit Types (m : Model) (l : list event) (L : Locals) (a : Args).

Variable P : event -> Prop.
Variable I : Model -> Prop.
Variable E : exn -> Prop.

Ltac kstep :=
  first
    [ apply kept_ret; assumption
    | apply kept_gets; assumption
    | apply kept_ext; [assumption|solve [auto]]
    | apply kept_emit; [assumption|solve [auto]]
    | apply kept_raise; [assumption|solve [auto]]
    | apply kept_force; [assumption|solve [auto]]
    | apply kept_seq; [|intros ? ? ?] ].

(** Lines 228-266. *)
Lemma attribute_resolve_kept a m :
  (text_truthy (input_texts a) = false -> I m /\ E empty_input_error) ->
  (text_truthy (input_texts a) = true -> I (after_device_override C a m)) ->
  (opt_truthy (method a) = true ->
   forall fa m',
     override_default_attribution a || negb (not_None (attribution_method m')) = true ->
     I m' -> I (set_attribution_method (Some fa) m')) ->
  (forall msg, P (Warning msg)) -> (forall msg, P (Info msg)) ->
  (forall d, device a = Some d -> P (ModelTo d)) ->
  (opt_truthy (method a) = true ->
   (forall fa, P (Unhook fa)) /\ forall name, P (Load name)) ->
  P ExtractArgs ->
  (generated_texts a <> None /\
     generate_from_target_prefix a && is_encoder_decoder m = false) \/
  ((forall t b1 b2 b3, P (Encode t b1 b2 b3)) /\ (forall e g, P (Generate e g))) ->
  (forall w, E (External w)) ->
  (forall e, format_input_texts (input_texts a) (generated_texts a) = Raise e -> E e) ->
  (batch_size a = Some 0 -> E ZeroDivisionError) ->
  (opt_truthy (method a) = false ->
   forall m', I m' -> attribution_method m' = None -> E MissingAttributionMethodError) ->
  (forall key, (forall k, attributed_fn a = Some (FnKey k) -> k = key) ->
     STEP_SCORES_MAP C !! key = None -> E (unknown_function key)) ->
  post (attribute_resolve C a) m (kept P I E).
Proof.
  intros Hempty Hdev Hbind HW HI HM HUL HX HG HE Hfmt Hzero Hmiss Hkey.
  unfold attribute_resolve.
  apply kept_bind. unfold when.
  destruct (text_truthy (input_texts a)) eqn:Ht; cbn [negb];
    [apply post_ret|apply post_raise; split; [constructor|by apply Hempty]].
  split; [constructor|]. specialize (Hdev eq_refl).
  apply kept_bind, post_gets. split; [constructor|].
  apply kept_bind, post_flag.
  split; [destruct (_ && negb _); by repeat constructor|].
  apply kept_bind, post_gets. split; [constructor|].
  apply kept_bind, post_flag. rewrite (flag_value (generate_from_target_prefix a)).
  split; [destruct (_ && negb _); by repeat constructor|].
  apply kept_bind, post_gets. split; [constructor|].
  unfold after_device_override in Hdev.
  apply kept_seq.
  { destruct (device a) as [d|] eqn:Hd; [|by apply kept_ret].
    apply device_setter_kept; auto. }
  intros _ m1 HI1.
  apply kept_bind, post_lift. split; [constructor|].
  destruct (format_input_texts _ _) as [[inputs targets]|e] eqn:Hf; [|by split; auto].
  cbn [fst snd].
  apply kept_seq.
  { destruct (batch_size a) as [size|]; [|kstep].
    destruct (Z.eqb_spec size 0) as [->|]; kstep. }
  intros _ m2 HI2.
  apply kept_seq; [|intros res m3 HI3].
  { destruct targets as [targets|].
    - destruct (generate_from_target_prefix a && is_encoder_decoder m) eqn:Hp.
      + destruct HG as [[_ [=]]|[HG1 HG2]]. repeat kstep.
      + unfold when. destruct (negb _); repeat kstep.
    - destruct HG as [[Hg _]|[HG1 HG2]].
      + exfalso. apply Hg. unfold format_input_texts in Hf.
        destruct (generated_texts a); [|done]. by destruct (_ =? _)%nat.
      + destruct (_ && _); repeat kstep. }
  apply kept_seq; [|intros fa m4 HI4].
  { apply get_attribution_method_kept; eauto. }
  apply kept_seq; [|intros fn m5 HI5].
  { by apply get_attributed_fn_kept. }
  repeat kstep.
Qed.

Lemma all_startswith_Raise (generated : TextInput) k inputs e :
  all_startswith generated k inputs = Raise e -> e = IndexError.
Proof.
  revert k. induction inputs as [|x rest IH]; intros k; cbn; [done|].
  destruct (getitem generated k); [|by intros [= <-]].
  destruct (String.prefix x s); [apply IH|done].
Qed.

(** Lines 267-313. *)
Lemma attribute_dispatch_kept a L m1 :
  I m1 ->
  (forall d d0, device a = Some d -> l_original_device L = Some d0 ->
     str_truthy d && str_truthy d0 = true ->
     I (final (setattr (device_property C) d0 m1)) /\ P (ModelTo d0)) ->
  (forall msg, P (Info msg)) ->
  (forall call, passed_on a L call ->
     P (PrepareAndAttribute (l_attribution_method L) call)) ->
  P MergeAttributions ->
  (forall w, E (External w)) ->
  (prefix_check L m1 = Return false -> E (AssertionError forced_generation_message)) ->
  (forall e, prefix_check L m1 = Raise e -> E e) ->
  post (attribute_dispatch C a L) m1 (kept P I E).
Proof.
  intros HI1 Hrestore HI HD HMerge HE HA HX.
  unfold prefix_check in HA, HX. unfold attribute_dispatch.
  apply kept_bind, post_gets. split; [constructor|].
  apply kept_bind.
  eapply post_mono with (Q := fun r m2 l2 => m2 = m1 /\ kept P I E r m2 l2).
  { destruct (is_encoder_decoder m1) eqn:Henc; cbn [negb];
      [apply post_ret; by repeat split|].
    apply post_bind, post_lift.
    destruct (all_startswith _ _ _) as [[]|e] eqn:Hs; unfold when; cbn [negb].
    - apply post_bind, post_ret, post_bind, post_force, post_force.
      split; [done|]. split; [|done].
      destruct (_ && _), (_ && _); by repeat constructor.
    - apply post_bind, post_raise. repeat split; [constructor|done|by apply HA].
    - repeat split; [constructor|done|by apply HX]. }
  intros [size|e] m2 l2 [-> (Hl2 & _ & He)]; (split; [done|]); [|done].
  apply kept_bind, post_force.
  split; [destruct (bool_decide _); by repeat constructor|].
  apply kept_bind, post_emit.
  split; [apply Forall_cons; split; [apply HD; by repeat split|constructor]|].
  apply kept_bind, post_ext.
  destruct (prepare_and_attribute C _ _) as [w|outs]; (split; [constructor|]); [done|].
  apply kept_bind, post_emit. split; [by repeat constructor|].
  apply kept_bind, post_ext.
  destruct (merge_attributions C outs) as [w|out]; (split; [constructor|]); [done|].
  apply kept_seq; [|intros _ m3 HI3; by apply kept_ret].
  destruct (device a) as [d|]; [|by apply kept_ret].
  destruct (l_original_device L) as [d0|]; [|by apply kept_ret].
  unfold when. destruct (str_truthy d && str_truthy d0) eqn:Ht; [|by apply kept_ret].
  destruct (Hrestore d d0 eq_refl eq_refl Ht) as [HIr HPr].
  by apply device_setter_kept.
Qed.
End KeptByAttribute.

Section AttributeKeeps.
Context {PyAny StepFn FeatureAttribution BatchEncoding StepOutputs Attributions : Type}.
Variable C : @Collaborators PyAny StepFn FeatureAttribution BatchEncoding StepOutputs Attributions.
Local Abbreviation Model := (@AttributionModel FeatureAttribution).
Local Abbreviation event := (@event PyAny StepFn FeatureAttribution BatchEncoding).
Local Abbreviation M := (@M PyAny StepFn FeatureAttribution BatchEncoding).
Local Abbreviation Locals := (@Locals PyAny StepFn FeatureAttribution).
Local Abbreviation Output := (@FeatureAttributionOutput PyAny Attributions).
Local Abbreviation Args := (@AttributeArgs PyAny StepFn).
Implicit Types (m : Model) (l : list event) (L : Locals) (a : Args).

Lemma device_setter_final d m :
  final (setattr (device_property C) d m) = m \/
  final (setattr (device_property C) d m) = set_device (Some d) m.
Proof.
  rewrite device_setter_run.
  destruct (check_device C d) as [?|[]]; [by left|].
  destruct (model m); [|by right]. destruct (model_to C d) as [?|[]]; by right.
Qed.

Lemma device_setter_Return d m :
  outcome (setattr (device_property C) d m) = Return tt ->
  final (setattr (device_property C) d m) = set_device (Some d) m.
Proof.
  rewrite device_setter_run.
  destruct (check_device C d) as [?|[]]; [done|].
  destruct (model m); [|done]. by destruct (model_to C d) as [?|[]].
Qed.

(** The whole of [attribute]. *)
Lemma attribute_kept (P : event -> Prop) (I : Model -> Prop) (E : exn -> Prop) a m :
  (text_truthy (input_texts a) = false -> I m /\ E empty_input_error) ->
  (text_truthy (input_texts a) = true -> I (after_device_override C a m)) ->
  (opt_truthy (method a) = true ->
   forall fa m',
     override_default_attribution a || negb (not_None (attribution_method m')) = true ->
     I m' -> I (set_attribution_method (Some fa) m')) ->
  (forall d d0 m1, device a = Some d -> _device m = Some d0 ->
     str_truthy d && str_truthy d0 = true -> I m1 ->
     I (final (setattr (device_property C) d0 m1)) /\ P (ModelTo d0)) ->
  (forall msg, P (Warning msg)) -> (forall msg, P (Info msg)) ->
  (forall d, device a = Some d -> P (ModelTo d)) ->
  (opt_truthy (method a) = true ->
   (forall fa, P (Unhook fa)) /\ forall name, P (Load name)) ->
  P ExtractArgs ->
  (generated_texts a <> None /\
     generate_from_target_prefix a && is_encoder_decoder m = false) \/
  ((forall t b1 b2 b3, P (Encode t b1 b2 b3)) /\ (forall e g, P (Generate e g))) ->
  (forall fa call, P (PrepareAndAttribute fa call)) ->
  P MergeAttributions ->
  (forall w, E (External w)) ->
  (forall e, format_input_texts (input_texts a) (generated_texts a) = Raise e -> E e) ->
  (batch_size a = Some 0 -> E ZeroDivisionError) ->
  (opt_truthy (method a) = false ->
   forall m', I m' -> attribution_method m' = None -> E MissingAttributionMethodError) ->
  (forall key, (forall k, attributed_fn a = Some (FnKey k) -> k = key) ->
     STEP_SCORES_MAP C !! key = None -> E (unknown_function key)) ->
  (is_encoder_decoder m = false ->
   E (AssertionError forced_generation_message) /\ E IndexError) ->
  post (attribute C a) m (kept P I E).
Proof.
  intros Hempty Hdev Hbind Hrestore HW HI HM HUL HX HG HD HMerge HE Hfmt Hzero Hmiss
    Hkey Hcheck.
  unfold attribute. apply kept_bind.
  pose proof (attribute_resolve_kept C P I E a m Hempty Hdev Hbind HW HI HM HUL HX HG
                HE Hfmt Hzero Hmiss Hkey) as H1.
  pose proof (attribute_resolve_locals C a m) as H2.
  unfold post in H1, H2 |- *.
  destruct (attribute_resolve C a m) as [[[L|e] m1] l1];
    cbn [outcome final events fst snd] in *;
    destruct H1 as (HP1 & HI1 & HE1); (split; [done|]); [|done].
  destruct H2 as (Henc & _ & Horig & _).
  apply attribute_dispatch_kept; auto.
  - intros d d0 Hd Hd0 Ht. rewrite Horig in Hd0. by apply (Hrestore d).
  - unfold prefix_check. intros Hf. apply Hcheck.
    destruct (is_encoder_decoder m1); [done|congruence].
  - unfold prefix_check. intros e Hf.
    destruct (is_encoder_decoder m1) eqn:Hdec; [done|].
    apply all_startswith_Raise in Hf as ->. apply Hcheck. congruence.
Qed.

(** X1.  [attribute] never changes the wrapped model reference, the
    architecture flag or the default attributed function of the object,
    however the call ends. *)
Theorem attribute_keeps_architecture a m :
  model (final (attribute C a m)) = model m /\
  is_encoder_decoder (final (attribute C a m)) = is_encoder_decoder m /\
  _default_attributed_fn_id (final (attribute C a m)) = _default_attributed_fn_id m.
Proof.
  set (I := fun m' : Model =>
    model m' = model m /\ is_encoder_decoder m' = is_encoder_decoder m /\
    _default_attributed_fn_id m' = _default_attributed_fn_id m).
  assert (Hsetter : forall d m1, I m1 -> I (final (setattr (device_property C) d m1))).
  { intros d m1 H1. by destruct (device_setter_final d m1) as [->| ->]. }
  assert (Hdev : I (after_device_override C a m)).
  { unfold after_device_override. destruct (device a); [|done]. by apply Hsetter. }
  destruct (attribute_kept (fun _ => True) I (fun _ => True) a m) as (_ & H & _);
    try done; auto.
Qed.

(** X2.  A call of [attribute] without a device leaves the device of the
    object as it was and never moves the model, however the call ends. *)
Theorem attribute_without_device a m :
  device a = None ->
  _device (final (attribute C a m)) = _device m /\
  Forall (fun ev => forall d, ev <> ModelTo d) (events (attribute C a m)).
Proof.
  intros Hd.
  destruct (attribute_kept (fun ev => forall d, ev <> ModelTo d)
              (fun m' => _device m' = _device m) (fun _ => True) a m)
    as (H1 & H2 & _); try done; auto; try congruence.
  intros _. unfold after_device_override. by rewrite Hd.
Qed.

(** X3.  The method bound to the object survives [attribute], however the
    call ends, when no method is named or when one is named without
    [override_default_attribution] on an object that has one bound; and a
    call that names no method neither unhooks nor loads one. *)
Theorem attribute_keeps_bound_method a m :
  (opt_truthy (method a) = false \/
   (override_default_attribution a = false /\ attribution_method m <> None) ->
   attribution_method (final (attribute C a m)) = attribution_method m) /\
  (opt_truthy (method a) = false ->
   Forall (fun ev => (forall fa, ev <> Unhook fa) /\ (forall name, ev <> Load name))
     (events (attribute C a m))).
Proof.
  assert (Hsetter : forall d m1,
    attribution_method m1 = attribution_method m ->
    attribution_method (final (setattr (device_property C) d m1)) = attribution_method m).
  { intros d m1 H1. by destruct (device_setter_final d m1) as [->| ->]. }
  split.
  - intros Hcase.
    assert (Hdev : attribution_method (after_device_override C a m) = attribution_method m).
    { unfold after_device_override. destruct (device a); auto. }
    assert (Hbind : opt_truthy (method a) = true ->
      forall fa m',
        override_default_attribution a || negb (not_None (attribution_method m')) = true ->
        attribution_method m' = attribution_method m ->
        attribution_method (set_attribution_method (Some fa) m') = attribution_method m).
    { intros Ht fa m' Hov Hm'. destruct Hcase as [?|[Hov' Hb]]; [congruence|].
      rewrite Hov', Hm' in Hov. by destruct (attribution_method m). }
    destruct (attribute_kept (fun _ => True)
                (fun m' => attribution_method m' = attribution_method m)
                (fun _ => True) a m) as (_ & H & _); try done; auto.
  - intros Hmeth.
    destruct (attribute_kept
                (fun ev => (forall fa, ev <> Unhook fa) /\ (forall name, ev <> Load name))
                (fun _ => True) (fun _ => True) a m) as (H & _); try done; auto;
      try congruence.
Qed.
End AttributeKeeps.

(** X4.  For a positive batch size the number of batches logged by
      [attribute] is the ceiling of the number of texts over the batch size:
      that many batches hold all the texts and one batch fewer does not. *)
Theorem n_batches_ceiling (len size : Z) :
  0 < size -> 0 <= len ->
  (n_batches len size - 1) * size < len <= n_batches len size * size.
Proof.
  intros Hs Hl. unfold n_batches.
  pose proof (Z.div_mod len size ltac:(lia)) as Hdm.
  pose proof (Z.mod_pos_bound len size Hs) as Hm.
  destruct (Z.ltb_spec 0 (len mod size)); nia.
Qed.

Section Errors.
Context {PyAny StepFn FeatureAttribution BatchEncoding StepOutputs Attributions : Type}.
Variable C : @Collaborators PyAny StepFn FeatureAttribution BatchEncoding StepOutputs Attributions.
Local Abbreviation Model := (@AttributionModel FeatureAttribution).
Local Abbreviation event := (@event PyAny StepFn FeatureAttribution BatchEncoding).
Local Abbreviation M := (@M PyAny StepFn FeatureAttribution BatchEncoding).
Local Abbreviation Locals := (@Locals PyAny StepFn FeatureAttribution).
Local Abbreviation Output := (@FeatureAttributionOutput PyAny Attributions).
Local Abbreviation Args := (@AttributeArgs PyAny StepFn).
Implicit Types (m : Model) (l : list event) (L : Locals) (a : Args).


(** Two consequences used on their own. *)
Lemma attribute_not_missing a m :
  opt_truthy (method a) = true \/ attribution_method m <> None ->
  outcome (attribute C a m) <> Raise MissingAttributionMethodError.
Proof.
  intros Hcase Hout.
  set (I := fun m' : Model =>
    opt_truthy (method a) = false -> attribution_method m' = attribution_method m).
  assert (Hdev : text_truthy (input_texts a) = true -> I (after_device_override C a m)).
  { intros _ _. unfold after_device_override. destruct (device a) as [d|]; [|done].
    by destruct (device_setter_final C d m) as [->| ->]. }
  assert (Hbind : opt_truthy (method a) = true ->
    forall fa m',
      override_default_attribution a || negb (not_None (attribution_method m')) = true ->
      I m' -> I (set_attribution_method (Some fa) m')).
  { intros Ht fa m' _ _ Hf. congruence. }
  assert (Hrestore : forall d d0 m1, device a = Some d -> _device m = Some d0 ->
    str_truthy d && str_truthy d0 = true -> I m1 ->
    I (final (setattr (device_property C) d0 m1)) /\ True).
  { intros d d0 m1 _ _ _ H1. split; [|done]. intros Hf.
    destruct (device_setter_final C d0 m1) as [->| ->]; by apply H1. }
  assert (Hmiss : opt_truthy (method a) = false ->
    forall m', I m' -> attribution_method m' = None ->
    MissingAttributionMethodError <> MissingAttributionMethodError).
  { intros Hf m' Hm' Hnone. rewrite (Hm' Hf) in Hnone.
    destruct Hcase; congruence. }
  assert (Hempty : text_truthy (input_texts a) = false ->
    I m /\ empty_input_error <> MissingAttributionMethodError).
  { intros Ht. split; done. }
  destruct (attribute_kept C (fun _ => True) I
              (fun e => e <> MissingAttributionMethodError) a m) as (_ & _ & H);
    try done; auto.
  - intros e'. unfold format_input_texts.
    destruct (generated_texts a) as [g|]; [|done].
    destruct (Nat.eqb_spec (length (as_list (input_texts a))) (length (as_list g)));
      [done|]. by intros [= <-].
  - by rewrite Hout in H.
Qed.

Lemma attribute_unbound_raises a m :
  opt_truthy (method a) = false -> attribution_method m = None ->
  exists e, outcome (attribute C a m) = Raise e.
Proof.
  intros Hm Hb.
  destruct (attribute_cases C a m) as
    [(e & m1 & l1 & E1 & Ea & He)|(L & m1 & l1 & l2 & E1 & Henc & HL & El & Hdis)].
  - exists e. by rewrite Ea.
  - destruct HL as (_ & _ & _ & _ & _ & _ & _ & _ & [?|?] & _); congruence.
Qed.

(** X6.  Once a device override has been accepted, a call of [attribute]
    that fails with an error of its own (not one of a collaborator) ends
    with the object on the override: nothing on a failure path restores
    the earlier device. *)
Theorem attribute_failure_keeps_override a m d e :
  text_truthy (input_texts a) = true ->
  device a = Some d ->
  device_override_accepted C a m ->
  outcome (attribute C a m) = Raise e ->
  (forall what, e <> External what) ->
  _device (final (attribute C a m)) = Some d.
Proof.
  intros Ht Hd Hacc Hout Hext.
  unfold device_override_accepted in Hacc. rewrite Hd in Hacc.
  destruct (attribute_cases C a m) as
    [(e' & m1 & l1 & E1 & Ea & _)|(L & m1 & l1 & l2 & E1 & Henc & HL & El & Hdis)].
  - rewrite Ea. cbn.
    assert (Hdev : _device (after_device_override C a m) = Some d).
    { unfold after_device_override. rewrite Hd. by rewrite device_setter_Return. }
    destruct (post_run _ _ _ _ _ _
      (attribute_resolve_kept C (fun _ => True) (fun m' => _device m' = Some d)
         (fun _ => True) a m ltac:(congruence) ltac:(done) ltac:(done) ltac:(done)
         ltac:(done) ltac:(done) ltac:(done) ltac:(done)
         ltac:(right; done) ltac:(done) ltac:(done) ltac:(done) ltac:(done)
         ltac:(done)) E1) as (_ & H & _).
    exact H.
  - destruct HL as (_ & _ & Hdev & _). rewrite Hd in Hdev.
    unfold dispatched in Hdis.
    destruct (prefix_check L m1) as [[]|e'] eqn:Hcheck;
      [|destruct Hdis as (_ & -> & _); done..].
    exfalso.
    pose proof (attribute_dispatch_kept C (fun _ => True) (fun _ => True)
      (fun e => exists what, e = External what) a L m1) as H.
    unfold post, kept in H. rewrite (attribute_resolved C _ _ _ _ _ E1) in Hout.
    cbn in Hout. rewrite Hout in H.
    destruct H as (_ & _ & (what & ->)); try done; eauto; try congruence.
Qed.

(** X7.  A batch size of 0 makes [attribute] raise [ZeroDivisionError] from
    the computation of the number of batches, once the input is non-empty,
    the device override accepted and the targets as many as the inputs;
    up to there only warnings and the move of the model have happened:
    nothing was encoded, generated, loaded or dispatched. *)
Theorem attribute_zero_batch_size a m :
  text_truthy (input_texts a) = true ->
  device_override_accepted C a m ->
  (forall g, generated_texts a = Some g ->
     length (as_list g) = length (as_list (input_texts a))) ->
  batch_size a = Some 0 ->
  outcome (attribute C a m) = Raise ZeroDivisionError /\
  Forall (fun ev => (exists msg, ev = Warning msg) \/ (exists d, ev = ModelTo d))
    (events (attribute C a m)).
Proof.
  intros Ht Hacc Hlen Hzero.
  set (P := fun ev : event => (exists msg, ev = Warning msg) \/ (exists d, ev = ModelTo d)).
  assert (H : post (attribute_resolve C a) m (fun r m1 l1 =>
    r = Raise ZeroDivisionError /\ Forall P l1)).
  { unfold attribute_resolve. rewrite Ht, Hzero. cbn [negb when].
    apply post_bind, post_ret, post_bind, post_gets, post_bind, post_flag.
    apply post_bind, post_gets, post_bind, post_flag, post_bind, post_gets.
    eapply post_seq with (Q1 := fun r m1 l1 => r = Return tt /\ Forall P l1).
    { unfold device_override_accepted in Hacc.
      destruct (device a) as [d|]; [|by apply post_ret].
      unfold post. split; [done|]. rewrite device_setter_run.
      destruct (check_device C d) as [?|[]]; [constructor|].
      destruct (model m); [|constructor].
      destruct (model_to C d) as [?|[]];
        (apply Forall_cons; split; [right; by eexists|constructor]). }
    intros r m1 l1 [-> Hl1].
    apply post_bind, post_lift.
    destruct (format_input_texts _ _) as [[inputs targets]|e'] eqn:Hf.
    - apply post_bind, post_raise. split; [done|].
      rewrite !app_nil_r. repeat (apply Forall_app; split); try done;
        (destruct (_ && negb _);
         [apply Forall_cons; split; [left; by eexists|constructor]|constructor]).
    - exfalso. unfold format_input_texts in Hf.
      destruct (generated_texts a) as [g|]; [|done].
      rewrite <- (Hlen g eq_refl), Nat.eqb_refl in Hf. done. }
  unfold post in H.
  destruct (attribute_resolve C a m) as [[r m1] l1] eqn:E1. cbn in H.
  destruct H as [-> Hl]. by rewrite (attribute_raised C _ _ _ _ _ E1).
Qed.
End Errors.

Section Resolved.
Context {PyAny StepFn FeatureAttribution BatchEncoding StepOutputs Attributions : Type}.
Variable C : @Collaborators PyAny StepFn FeatureAttribution BatchEncoding StepOutputs Attributions.
Local Abbreviation Model := (@AttributionModel FeatureAttribution).
Local Abbreviation event := (@event PyAny StepFn FeatureAttribution BatchEncoding).
Local Abbreviation M := (@M PyAny StepFn FeatureAttribution BatchEncoding).
Local Abbreviation Locals := (@Locals PyAny StepFn FeatureAttribution).
Local Abbreviation Output := (@FeatureAttributionOutput PyAny Attributions).
Local Abbreviation Args := (@AttributeArgs PyAny StepFn).
Implicit Types (m : Model) (l : list event) (L : Locals) (a : Args).

(** Lines 228-266 when they return: generation, method, attributed
    function, keyword arguments. *)
Lemma attribute_resolve_more a m :
  post (attribute_resolve C a) m (fun r m1 l1 =>
    match r with
    | Return L =>
        resolved_generation C a L l1 /\ resolved_method C a m L m1 /\
        resolved_call C a m L
    | Raise _ => True
    end).
Proof.
  unfold attribute_resolve.
  apply post_bind. destruct (text_truthy (input_texts a)) eqn:Ht; cbn [negb when];
    [|by apply post_raise].
  apply post_ret. cbn [app].
  apply post_bind, post_gets.
  apply post_bind, post_flag.
  apply post_bind, post_gets.
  apply post_bind, post_flag. rewrite (flag_value (generate_from_target_prefix a)).
  apply post_bind, post_gets.
  eapply post_seq with (Q1 := fun r m1 l1 =>
    attribution_method m1 = attribution_method m /\
    _default_attributed_fn_id m1 = _default_attributed_fn_id m).
  { destruct (device a) as [d|]; [|by apply post_ret].
    unfold post. by destruct (device_setter_final C d m) as [->| ->]. }
  intros [[]|e] m1 l1 (Hbound & Hfn); [|done].
  apply post_bind, post_lift.
  destruct (format_input_texts _ _) as [[inputs targets]|e] eqn:Hfmt; [|done].
  destruct (format_input_texts_Return _ _ _ _ Hfmt) as (-> & -> & _).
  clear Hfmt. cbn [fst snd].
  eapply post_seq with (Q1 := fun r m2 l2 => m2 = m1).
  { destruct (batch_size a) as [size|]; [|done]. by destruct (size =? 0). }
  intros [[]|e] m2 l2 ->; [|done].
  set (prefix := generate_from_target_prefix a && is_encoder_decoder m).
  eapply post_seq with (Q1 := fun r m2 l3 => m2 = m1 /\
    forall res, r = Return res ->
      generated_texts a = None \/ prefix = true ->
      exists encoded_input,
        encode C (Some (Texts (as_list (input_texts a)))) false true
          (include_eos_baseline a) = inr encoded_input /\
        generate C encoded_input res.2 = inr res.1 /\
        Generate encoded_input res.2 ∈ l3 /\
        if prefix then
          exists decoder_input,
            encode C ((fun g => Texts (as_list g)) <$> generated_texts a) true false false
              = inr decoder_input /\
            res.2 = <["decoder_input_ids" := input_ids C decoder_input]> (generation_args a)
        else res.2 = generation_args a).
  { assert (Hmap : Texts <$> (as_list <$> generated_texts a)
                   = (fun g => Texts (as_list g)) <$> generated_texts a)
      by (by destruct (generated_texts a)).
    rewrite Hmap.
    assert (Hgen : post
      (emit (Encode (Some (Texts (as_list (input_texts a)))) false true
               (include_eos_baseline a));;
       encoded_input ← ext (encode C (Some (Texts (as_list (input_texts a)))) false true
                              (include_eos_baseline a));
       generation_args ←
         (if prefix then
            emit (Encode ((fun g => Texts (as_list g)) <$> generated_texts a)
                    true false false);;
            decoder_input ←
              ext (encode C ((fun g => Texts (as_list g)) <$> generated_texts a)
                     true false false);
            mret (<["decoder_input_ids" := input_ids C decoder_input]>
                    (generation_args a))
          else mret (generation_args a));
       emit (Generate encoded_input generation_args);;
       generated ← ext (generate C encoded_input generation_args);
       mret (generated, generation_args)) m1
      (fun r m2 l3 => m2 = m1 /\
         forall res, r = Return res ->
         exists encoded_input,
           encode C (Some (Texts (as_list (input_texts a)))) false true
             (include_eos_baseline a) = inr encoded_input /\
           generate C encoded_input res.2 = inr res.1 /\
           Generate encoded_input res.2 ∈ l3 /\
           if prefix then
             exists decoder_input,
               encode C ((fun g => Texts (as_list g)) <$> generated_texts a)
                 true false false = inr decoder_input /\
               res.2 = <["decoder_input_ids" := input_ids C decoder_input]>
                         (generation_args a)
           else res.2 = generation_args a)).
    { apply post_bind, post_emit, post_bind, post_ext.
      destruct (encode C (Some _) _ _ _) as [?|enc] eqn:Henc; [done|].
      apply post_bind. destruct prefix.
      - apply post_bind, post_emit, post_bind, post_ext.
        destruct (encode C (_ <$> _) _ _ _) as [?|dec] eqn:Hdec; [done|].
        apply post_ret, post_bind, post_emit, post_bind, post_ext.
        destruct (generate C _ _) as [?|gen] eqn:Hgen; [done|].
        apply post_ret. split; [done|]. intros ? [= <-]. exists enc.
        cbn [fst snd]. repeat split; [done|in_log|]. by exists dec.
      - apply post_ret, post_bind, post_emit, post_bind, post_ext.
        destruct (generate C _ _) as [?|gen] eqn:Hgen; [done|].
        apply post_ret. split; [done|]. intros ? [= <-]. exists enc.
        cbn [fst snd]. repeat split; [done|in_log]. }
    destruct (generated_texts a) as [g|] eqn:Hg; cbn [fmap option_fmap option_map].
    - cbn [fmap option_fmap option_map] in Hgen. destruct prefix eqn:Hp.
      + eapply post_mono; [exact Hgen|]. intros r m2 l3 [-> H]. by auto.
      + apply post_bind. unfold when. destruct (negb _).
        * apply post_emit, post_ret. split; [done|]. by intros ? _ [[=]|[=]].
        * apply post_ret, post_ret. split; [done|]. by intros ? _ [[=]|[=]].
    - cbn [fmap option_fmap option_map] in Hgen.
      eapply post_mono; [exact Hgen|]. intros r m2 l3 [-> H]. by auto. }
  intros [res|e] m2 l3 [-> Hres]; [|done]. specialize (Hres res eq_refl).
  eapply post_seq with (Q1 := fun r m2 l2 =>
    _default_attributed_fn_id m2 = _default_attributed_fn_id m /\
    forall fa, r = Return fa ->
      (if opt_truthy (method a)
       then load C (default "" (method a)) = inr fa
       else attribution_method m = Some fa) /\
      attribution_method m2 =
        if opt_truthy (method a)
           && (override_default_attribution a || negb (not_None (attribution_method m)))
        then Some fa else attribution_method m).
  { unfold post. rewrite get_attribution_method_run, Hbound.
    destruct (opt_truthy (method a)); cbn zeta; cbn [andb].
    - destruct (attribution_method m) as [old|] eqn:Hb.
      + destruct (unhook C old) as [?|[]]; [done|].
        destruct (load C (default "" (method a))) as [?|fa]; [done|].
        split; [by destruct (override_default_attribution a)|].
        intros ? [= <-]. split; [done|]. cbn.
        destruct (override_default_attribution a); cbn; congruence.
      + destruct (load C (default "" (method a))) as [?|fa]; [done|].
        split; [done|]. intros ? [= <-]. split; [done|]. cbn.
        by rewrite orb_true_r.
    - destruct (attribution_method m) as [fa|] eqn:Hb; [|done].
      split; [done|]. intros ? [= <-]. split; [done|cbn; congruence]. }
  intros [fa|e] m2 l4 [Hfn2 Hfa]; [|done]. destruct (Hfa fa eq_refl) as [Hload Hbind].
  eapply post_seq with (Q1 := fun r m3 l3 => m3 = m2 /\
    forall f, r = Return f ->
      outcome (get_attributed_fn C (attributed_fn a) m) = Return f).
  { unfold post. rewrite !get_attributed_fn_run, Hfn2.
    destruct (default _ (attributed_fn a)); [destruct (STEP_SCORES_MAP C !! _)|];
      cbn; (split; [done|]); congruence. }
  intros [f|e] m3 l5 [-> Hf]; [|done]. specialize (Hf f eq_refl).
  apply post_bind, post_emit, post_bind, post_ext.
  destruct (extract_args C _ _ _ _) as [?|extracted] eqn:Hx; [done|].
  apply post_ret.
  unfold resolved_generation, resolved_method, resolved_call;
    cbn [l_input_texts l_generated_texts l_generate_from_target_prefix
         l_generation_args l_attribution_method l_attributed_fn l_pretty_progress
         l_attribution_args l_attributed_fn_args l_step_scores_args].
  split; [|split; [done|]].
  - intros Hcase. destruct (Hres Hcase) as (enc & H1 & H2 & H3 & H4).
    exists enc. repeat split; [done|done|in_log|done].
  - repeat split; [done|]. by destruct extracted as [[??]?].
Qed.
End Resolved.

(** X8.  The prefix check of the decoder-only branch raises [IndexError]
    exactly when some position below the number of inputs has no generated
    text while every earlier position has one that starts with its input:
    [all] stops at the first failing prefix, before any later lookup. *)
Theorem all_startswith_IndexError (generated : TextInput) (inputs : list string) :
  all_startswith generated 0 inputs = Raise IndexError <->
  exists idx,
    (idx < length inputs)%nat /\ getitem generated idx = None /\
    forall j x, (j < idx)%nat -> inputs !! j = Some x ->
      exists g, getitem generated j = Some g /\ String.prefix x g = true.
Proof.
  enough (H : forall k,
    all_startswith generated k inputs = Raise IndexError <->
    exists idx,
      (idx < length inputs)%nat /\ getitem generated (k + idx) = None /\
      forall j x, (j < idx)%nat -> inputs !! j = Some x ->
        exists g, getitem generated (k + j) = Some g /\ String.prefix x g = true)
    by apply (H 0%nat).
  induction inputs as [|y rest IH]; intros k; cbn [all_startswith length].
  - split; [done|]. intros (idx & Hlt & _). lia.
  - destruct (getitem generated k) as [g0|] eqn:Hg0.
    + destruct (String.prefix y g0) eqn:Hp.
      * rewrite IH. split.
        -- intros (idx & Hlt & Hnone & Hall). exists (S idx).
           split; [lia|]. split; [by rewrite <- Nat.add_succ_comm|].
           intros [|j] x Hj Hx; cbn in Hx.
           ++ simplify_eq. rewrite Nat.add_0_r. eauto.
           ++ rewrite <- Nat.add_succ_comm. apply Hall; [lia|done].
        -- intros ([|idx] & Hlt & Hnone & Hall).
           ++ rewrite Nat.add_0_r in Hnone. congruence.
           ++ exists idx. split; [lia|]. split; [by rewrite Nat.add_succ_comm|].
              intros j x Hj Hx. rewrite Nat.add_succ_comm. apply Hall; [lia|done].
      * split; [done|]. intros ([|idx] & Hlt & Hnone & Hall).
        -- rewrite Nat.add_0_r in Hnone. congruence.
        -- destruct (Hall 0%nat y ltac:(lia) eq_refl) as (g & Hg & Hpg).
           rewrite Nat.add_0_r in Hg. congruence.
    + split; [|done]. intros _. exists 0%nat.
      split; [lia|]. split; [by rewrite Nat.add_0_r|]. intros j x Hj. lia.
Qed.

Section Metadata.
Context {PyAny StepFn FeatureAttribution BatchEncoding StepOutputs Attributions : Type}.
Variable C : @Collaborators PyAny StepFn FeatureAttribution BatchEncoding StepOutputs Attributions.
Local Abbreviation Model := (@AttributionModel FeatureAttribution).
Local Abbreviation event := (@event PyAny StepFn FeatureAttribution BatchEncoding).
Local Abbreviation M := (@M PyAny StepFn FeatureAttribution BatchEncoding).
Local Abbreviation Locals := (@Locals PyAny StepFn FeatureAttribution).
Local Abbreviation Output := (@FeatureAttributionOutput PyAny Attributions).
Local Abbreviation Args := (@AttributeArgs PyAny StepFn).
Implicit Types (m : Model) (l : list event) (L : Locals) (a : Args).

(** A returned output, with the locals it was built from. *)
Lemma attribute_returned a m out :
  outcome (attribute C a m) = Return out ->
  exists L m1 l1,
    attribute_resolve C a m = (Return L, m1, l1) /\
    is_encoder_decoder m1 = is_encoder_decoder m /\
    resolved_locals C a m L m1 l1 /\
    resolved_generation C a L l1 /\
    resolved_method C a m L m1 /\
    resolved_call C a m L /\
    prefix_check L m1 = Return true /\
    run_metadata L out /\
    (forall ev, ev ∈ l1 -> ev ∈ events (attribute C a m)).
Proof.
  intros Hout.
  destruct (attribute_cases C a m) as
    [(e & m1 & l1 & E1 & Ea & _)|(L & m1 & l1 & l2 & E1 & Henc & HL & El & Hdis)].
  { by rewrite Ea in Hout. }
  exists L, m1, l1.
  destruct (post_run _ _ _ _ _ _ (attribute_resolve_more C a m) E1) as (Hg & Hm & Hc).
  do 6 (split; [done|]).
  unfold dispatched in Hdis.
  destruct (prefix_check L m1) as [[]|e];
    [|destruct Hdis as (Hr & _); congruence..].
  destruct Hdis as (_ & _ & _ & _ & _ & _ & _ & _ & _ & _ & _ & Hret).
  split; [done|]. split; [by apply Hret|].
  intros ev Hev. rewrite El. in_log.
Qed.

(** X9.  When [attribute] is given no target texts and returns, the output
    records [constrained_decoding = False] and the input texts as a list;
    the inputs were encoded with a baseline, the model generated from that
    encoding, and the generated texts and the generation arguments used
    are the ones recorded; without target-prefix generation these are the
    caller's arguments unchanged. *)
Theorem attribute_generated_metadata a m out :
  generated_texts a = None ->
  outcome (attribute C a m) = Return out ->
  info out !! "constrained_decoding" = Some (InfoBool false) /\
  info out !! "input_texts" = Some (InfoTexts (as_list (input_texts a))) /\
  exists encoded_input args generated,
    encode C (Some (Texts (as_list (input_texts a)))) false true (include_eos_baseline a)
      = inr encoded_input /\
    generate C encoded_input args = inr generated /\
    Generate encoded_input args ∈ events (attribute C a m) /\
    info out !! "generated_texts" = Some (InfoTexts (as_list generated)) /\
    info out !! "generation_args" = Some (InfoArgs args) /\
    (generate_from_target_prefix a && is_encoder_decoder m = false ->
     args = generation_args a).
Proof.
  intros Hnone Hout.
  destruct (attribute_returned a m out Hout) as
    (L & m1 & l1 & _ & _ & HL & Hgen & _ & _ & _ & Hmeta & Hsub).
  destruct HL as (_ & _ & _ & _ & Hflag & Hin & Hhas & _).
  destruct Hmeta as (Hi1 & Hi2 & Hi3 & Hi4 & _).
  rewrite Hi4, Hi1, Hhas, Hin, Hnone. do 2 (split; [done|]).
  destruct (Hgen (or_introl Hnone)) as (enc & He & Hg & Hev & Hargs).
  exists enc, (l_generation_args L), (l_generated_texts L).
  rewrite Hin in He. do 2 (split; [done|]). split; [by apply Hsub|].
  do 2 (split; [done|]). intros Hp. by rewrite Hflag, Hp in Hargs.
Qed.

(** X10.  On an encoder-decoder model with [generate_from_target_prefix]
    and target texts, a call of [attribute] that returns encoded the
    inputs and, as targets, the given prefixes, generated with
    [decoder_input_ids] added to the caller's generation arguments, and
    records the generated texts, those enlarged arguments,
    [constrained_decoding = True] and [generate_from_target_prefix = True]. *)
Theorem attribute_prefix_generation a m g out :
  is_encoder_decoder m = true ->
  generate_from_target_prefix a = true ->
  generated_texts a = Some g ->
  outcome (attribute C a m) = Return out ->
  info out !! "constrained_decoding" = Some (InfoBool true) /\
  info out !! "generate_from_target_prefix" = Some (InfoBool true) /\
  exists encoded_input decoder_input generated,
    encode C (Some (Texts (as_list (input_texts a)))) false true (include_eos_baseline a)
      = inr encoded_input /\
    encode C (Some (Texts (as_list g))) true false false = inr decoder_input /\
    generate C encoded_input
      (<["decoder_input_ids" := input_ids C decoder_input]> (generation_args a))
      = inr generated /\
    info out !! "generated_texts" = Some (InfoTexts (as_list generated)) /\
    info out !! "generation_args"
      = Some (InfoArgs (<["decoder_input_ids" := input_ids C decoder_input]>
                          (generation_args a))).
Proof.
  intros Henc Hp Hg Hout.
  destruct (attribute_returned a m out Hout) as
    (L & m1 & l1 & _ & _ & HL & Hgen & _ & _ & _ & Hmeta & Hsub).
  destruct HL as (_ & _ & _ & _ & Hflag & Hin & Hhas & _).
  destruct Hmeta as (Hi1 & Hi2 & Hi3 & Hi4 & Hi5).
  rewrite Hp, Henc in Hflag. cbn in Hflag.
  rewrite Hi4, Hi5, Hhas, Hflag, Hg. do 2 (split; [done|]).
  destruct (Hgen (or_intror Hflag)) as (enc & He & Hgn & Hev & Hargs).
  rewrite Hflag in Hargs. destruct Hargs as (dec & Hd & Hargs).
  rewrite Hg in Hd. cbn in Hd. rewrite Hin in He. rewrite Hargs in Hgn, Hi3.
  by exists enc, dec, (l_generated_texts L).
Qed.

(** A dispatch, with the locals it was made from. *)
Lemma attribute_dispatched a m fa call :
  PrepareAndAttribute fa call ∈ events (attribute C a m) ->
  exists L m1 l1,
    attribute_resolve C a m = (Return L, m1, l1) /\
    resolved_locals C a m L m1 l1 /\
    resolved_method C a m L m1 /\
    resolved_call C a m L /\
    fa = l_attribution_method L /\
    passed_on a L call.
Proof.
  intros Hin.
  pose proof (resolve_no_dispatch C a m) as Hnd. rewrite Forall_forall in Hnd.
  destruct (attribute_resolve C a m) as [[[L|e] m1] l1] eqn:E1.
  2: { rewrite (attribute_raised C _ _ _ _ _ E1) in Hin. by destruct (Hnd _ Hin). }
  destruct (post_run _ _ _ _ _ _ (attribute_resolve_more C a m) E1) as (_ & Hm & Hc).
  destruct (post_run _ _ _ _ _ _ (attribute_resolve_locals C a m) E1) as (_ & HL).
  rewrite (attribute_resolved C _ _ _ _ _ E1) in Hin. cbn [after events snd] in Hin.
  apply elem_of_app in Hin as [Hin|Hin]; [by destruct (Hnd _ Hin)|].
  destruct (attribute_dispatch_kept C
    (fun ev => forall fa call, ev = PrepareAndAttribute fa call ->
                 fa = l_attribution_method L /\ passed_on a L call)
    (fun _ => True) (fun _ => True) a L m1) as (Hall & _); try done.
  { intros call' Hp ?? [= <- <-]. done. }
  rewrite Forall_forall in Hall.
  destruct (Hall _ Hin fa call eq_refl) as [-> Hpass].
  by exists L, m1, l1.
Qed.

(** X11.  Whatever [attribute] hands to [prepare_and_attribute] comes from
    the call: the input texts as a list, the positions, the progress and
    output options and the step scores unchanged, [pretty_progress]
    switched off in a notebook, [attribute_target] only on an
    encoder-decoder model, the attributed function resolved by
    [get_attributed_fn], the three argument groups split off by
    [extract_args]; the method invoked is the one loaded under the given
    name, or the one bound to the object when none is named. *)
Theorem attribute_dispatch_arguments a m fa call :
  PrepareAndAttribute fa call ∈ events (attribute C a m) ->
  pa_input_texts call = as_list (input_texts a) /\
  pa_attr_pos_start call = attr_pos_start a /\
  pa_attr_pos_end call = attr_pos_end a /\
  pa_show_progress call = show_progress a /\
  pa_output_step_attributions call = output_step_attributions a /\
  pa_step_scores call = step_scores a /\
  pa_include_eos_baseline call = include_eos_baseline a /\
  pa_pretty_progress call = (if isnotebook C then false else pretty_progress a) /\
  pa_attribute_target call = attribute_target a && is_encoder_decoder m /\
  outcome (get_attributed_fn C (attributed_fn a) m) = Return (pa_attributed_fn call) /\
  (if opt_truthy (method a)
   then load C (default "" (method a)) = inr fa
   else attribution_method m = Some fa) /\
  extract_args C fa (pa_attributed_fn call) (step_scores a) (kwargs a)
    = inr (pa_attribution_args call, pa_attributed_fn_args call, pa_step_scores_args call).
Proof.
  intros Hin.
  destruct (attribute_dispatched a m fa call Hin) as
    (L & m1 & l1 & _ & HL & Hm & Hc & -> & Hpass).
  destruct Hpass as
    (H1 & _ & H3 & H4 & H5 & H6 & H7 & H8 & H9 & H10 & H11 & H12 & H13 & H14).
  destruct HL as (_ & _ & _ & Htarget & _ & Hinputs & _).
  destruct Hm as [Hload _]. destruct Hc as (Hpretty & Hfn & Hx).
  rewrite H1, H3, H4, H5, H6, H7, H8, H9, H10, H11, H12, H13, H14.
  rewrite Hinputs, Hpretty, Htarget. by repeat split.
Qed.

(** X12.  A run of [attribute] invokes the attribution method at most
    once: the events of the run split around the invocation, with no
    dispatch before it and no dispatch, encoding or generation after it. *)
Theorem attribute_dispatches_once a m fa call :
  PrepareAndAttribute fa call ∈ events (attribute C a m) ->
  exists before later,
    events (attribute C a m) = before ++ PrepareAndAttribute fa call :: later /\
    Forall (fun ev => ~ is_dispatch ev) before /\
    Forall is_quiet later.
Proof.
  intros Hin.
  pose proof (resolve_no_dispatch C a m) as Hnd.
  destruct (attribute_cases C a m) as
    [(e & m1 & l1 & E1 & Ea & _)|(L & m1 & l1 & l2 & E1 & Henc & HL & El & Hdis)].
  { rewrite Ea in Hin. rewrite E1 in Hnd. rewrite Forall_forall in Hnd.
    by destruct (Hnd _ Hin). }
  rewrite E1 in Hnd. cbn in Hnd.
  assert (Hin2 : PrepareAndAttribute fa call ∈ l2).
  { rewrite El, elem_of_app in Hin. destruct Hin as [Hin|Hin]; [|done].
    rewrite Forall_forall in Hnd. by destruct (Hnd _ Hin). }
  unfold dispatched in Hdis.
  destruct (prefix_check L m1) as [[]|e];
    [|destruct Hdis as (_ & _ & ->); by apply elem_of_nil in Hin2..].
  destruct Hdis as (infos & call' & tail & -> & Hi & Ht & _).
  assert (PrepareAndAttribute fa call
          = PrepareAndAttribute (l_attribution_method L) call') as ->.
  { rewrite elem_of_app, elem_of_cons in Hin2. destruct Hin2 as [H|[H|H]]; [|done|].
    - rewrite Forall_forall in Hi. by destruct (Hi _ H) as [[] _].
    - rewrite Forall_forall in Ht. by destruct (Ht _ H) as [[] _]. }
  exists (l1 ++ infos), tail. rewrite El, <- app_assoc. split; [done|].
  split; [|done]. apply Forall_app. split; [done|by apply quiet_not_dispatch].
Qed.

(** X13.  On a decoder-only model with explicit targets, the attribution
    method is invoked only if the targets are as many as the inputs and
    each starts with its input; the targets are passed on as a list. *)
Theorem attribute_dispatch_requires_prefix a m g fa call :
  is_encoder_decoder m = false ->
  generated_texts a = Some g ->
  PrepareAndAttribute fa call ∈ events (attribute C a m) ->
  pa_generated_texts call = Texts (as_list g) /\
  length (as_list g) = length (as_list (input_texts a)) /\
  forall idx x, as_list (input_texts a) !! idx = Some x ->
    exists target, as_list g !! idx = Some target /\ String.prefix x target = true.
Proof.
  intros Hdec Hg Hin.
  destruct (attribute_dispatches C a m fa call Hin) as
    (L & m1 & l1 & _ & Henc & HL & _ & Hcheck & _ & Hgen & _).
  destruct HL as (_ & _ & _ & _ & Hflag & Hinputs & _ & Htargets & _).
  destruct (Htargets g Hg) as (Hlen & Hcons).
  rewrite Hdec, andb_false_r in Hflag. destruct (Hcons Hflag) as (HLg & _).
  split; [congruence|]. split; [done|].
  unfold prefix_check in Hcheck. rewrite Henc, Hdec, HLg, Hinputs in Hcheck.
  destruct (all_startswith_true (Texts (as_list g)) (as_list (input_texts a)) 0)
    as [Hall _].
  exact (Hall Hcheck).
Qed.
End Metadata.

Section Setup.
Context {PyAny StepFn FeatureAttribution BatchEncoding StepOutputs Attributions : Type}.
Variable C : @Collaborators PyAny StepFn FeatureAttribution BatchEncoding StepOutputs Attributions.
Local Abbreviation Model := (@AttributionModel FeatureAttribution).
Local Abbreviation event := (@event PyAny StepFn FeatureAttribution BatchEncoding).
Local Abbreviation M := (@M PyAny StepFn FeatureAttribution BatchEncoding).
Local Abbreviation Locals := (@Locals PyAny StepFn FeatureAttribution).
Local Abbreviation Output := (@FeatureAttributionOutput PyAny Attributions).
Local Abbreviation Args := (@AttributeArgs PyAny StepFn).
Implicit Types (m : Model) (l : list event) (L : Locals) (a : Args).

(** X14.  Assigning the device validates first: a device refused by
    [check_device] leaves the object untouched and moves nothing.  An
    accepted device is stored before the model is moved, so it stays
    stored even when the move fails; the model is moved only when there is
    one; after an assignment that returns, reading [device] gives the
    assigned value. *)
Theorem device_setter_validates_first d m :
  (forall what, check_device C d = inl what ->
     setattr (device_property C) d m = (Raise (External what), m, [])) /\
  (check_device C d = inr tt ->
     _device (final (setattr (device_property C) d m)) = Some d /\
     events (setattr (device_property C) d m) = (if model m then [ModelTo d] else []) /\
     outcome (setattr (device_property C) d m) =
       (if model m then
          match model_to C d with
          | inl what => Raise (External what)
          | inr _ => Return tt
          end
        else Return tt)) /\
  (outcome (setattr (device_property C) d m) = Return tt ->
   fget (device_property C) (final (setattr (device_property C) d m))
     = (Return (Some d), set_device (Some d) m, [])).
Proof.
  split; [|split].
  - intros what H. by rewrite device_setter_run, H.
  - intros H. rewrite device_setter_run, H.
    destruct (model m); [|done]. by destruct (model_to C d) as [?|[]].
  - intros H. by rewrite (device_setter_Return C d m H).
Qed.

(** [setup], case by case. *)
Lemma setup_run default_device dev meth ov m :
  setup C default_device dev meth ov m =
  match setattr (device_property C) (default default_device dev) m with
  | (Raise e, m1, l1) => (Raise e, m1, l1)
  | (Return _, m1, l1) =>
      if model m then
        after (l1 ++ [ModelEval; ModelZeroGrad])
          match get_attribution_method C meth ov m1 with
          | (Return fa, m2, l2) => (Return tt, set_attribution_method (Some fa) m2, l2)
          | (Raise e, m2, l2) => (Raise e, m2, l2)
          end
      else (Return tt, m1, l1)
  end.
Proof.
  unfold setup.
  destruct (setattr (device_property C) (default default_device dev) m)
    as [[[[]|e] m1] l1] eqn:Es.
  - rewrite (bind_Return _ _ _ _ _ _ Es).
    assert (Hmodel : model m1 = model m).
    { pose proof (device_setter_final C (default default_device dev) m) as H.
      rewrite Es in H. cbn in H. by destruct H as [->| ->]. }
    rewrite run_bind_gets, Hmodel. destruct (model m); cbn [when].
    + unfold mbind, M_bind, emit, modify, after, outcome, final, events. cbn.
      destruct (get_attribution_method C meth ov m1) as [[[fa|e] m2] l2]; cbn;
        by rewrite <- ?app_assoc, ?app_nil_r.
    + unfold after, mret, M_ret. cbn. by rewrite app_nil_r.
  - by rewrite (bind_Raise _ _ _ _ _ _ Es).
Qed.



(** X17.  After a [setup] of a wrapped model that returns, the object is on
    the requested (or default) device with its architecture unchanged and
    has a method bound: the one loaded under the given name, or the one it
    had when none is named.  From there [attribute] never raises
    [MissingAttributionMethodError], and a call naming no method invokes
    that bound method and no other. *)
Theorem setup_binds_method default_device dev meth ov m :
  model m = true ->
  outcome (setup C default_device dev meth ov m) = Return tt ->
  let m' := final (setup C default_device dev meth ov m) in
  _device m' = Some (default default_device dev) /\
  is_encoder_decoder m' = is_encoder_decoder m /\
  exists fa,
    attribution_method m' = Some fa /\
    (if opt_truthy meth
     then load C (default "" meth) = inr fa
     else attribution_method m = Some fa) /\
    forall a,
      outcome (attribute C a m') <> Raise MissingAttributionMethodError /\
      forall fa' call,
        opt_truthy (method a) = false ->
        PrepareAndAttribute fa' call ∈ events (attribute C a m') -> fa' = fa.
Proof.
  intros Hm Hout m'. unfold m' in *. clear m'. revert Hout.
  rewrite setup_run, Hm, device_setter_run, Hm.
  destruct (check_device C _) as [?|[]]; [done|].
  destruct (model_to C _) as [?|[]]; [done|].
  rewrite get_attribution_method_run. cbn [attribution_method set_device].
  set (m1 := set_device _ m).
  assert (Hfinal : forall fa (m3 : Model),
    _device m3 = Some (default default_device dev) ->
    is_encoder_decoder m3 = is_encoder_decoder m ->
    attribution_method m3 = Some fa ->
    (if opt_truthy meth
     then load C (default "" meth) = inr fa
     else attribution_method m = Some fa) ->
    _device m3 = Some (default default_device dev) /\
    is_encoder_decoder m3 = is_encoder_decoder m /\
    exists fa0,
      attribution_method m3 = Some fa0 /\
      (if opt_truthy meth
       then load C (default "" meth) = inr fa0
       else attribution_method m = Some fa0) /\
      forall a,
        outcome (attribute C a m3) <> Raise MissingAttributionMethodError /\
        forall fa' call,
          opt_truthy (method a) = false ->
          PrepareAndAttribute fa' call ∈ events (attribute C a m3) ->
          fa' = fa0).
  { intros fa m3 Hd He Hb Hl. do 2 (split; [done|]). exists fa.
    do 2 (split; [done|]). intros a. split.
    - apply attribute_not_missing. right. congruence.
    - intros fa' call Hf Hin.
      destruct (attribute_dispatched C a _ fa' call Hin)
        as (L & _ & _ & _ & _ & [Hfa _] & _ & -> & _).
      rewrite Hf in Hfa. congruence. }
  destruct (opt_truthy meth) eqn:Hmeth; cbn zeta.
  - destruct (attribution_method m) as [old|] eqn:Hb.
    + destruct (unhook C old) as [?|[]]; [done|].
      destruct (load C (default "" meth)) as [?|fa] eqn:Hl; [done|].
      intros _. apply (Hfinal fa); cbn; try done; by destruct ov.
    + destruct (load C (default "" meth)) as [?|fa] eqn:Hl; [done|].
      intros _. by apply (Hfinal fa).
  - destruct (attribution_method m) as [fa|] eqn:Hb; [|done].
    intros _. by apply (Hfinal fa).
Qed.

(** X18.  An object fresh from [__init__] with no wrapped model goes
    through [setup] silently whenever the device is accepted: it gets the
    device, keeps "probability" as default attributed function and still
    has no method bound, so that every later [attribute] that names no
    method raises. *)
Theorem setup_after_init_without_model default_device dev meth ov preset :
  let m0 : Model := __init__ preset in
  model m0 = false ->
  check_device C (default default_device dev) = inr tt ->
  let m' := final (setup C default_device dev meth ov m0) in
  setup C default_device dev meth ov m0 = (Return tt, m', []) /\
  _device m' = Some (default default_device dev) /\
  attribution_method m' = None /\
  _default_attributed_fn_id m' = "probability" /\
  forall a, opt_truthy (method a) = false ->
    exists e, outcome (attribute C a m') = Raise e.
Proof.
  intros m0 Hm Hcheck m'. unfold m'. clear m'.
  rewrite setup_run, device_setter_run, Hm, Hcheck. cbn.
  do 4 (split; [done|]). intros a Ha. by apply attribute_unbound_raises.
Qed.

Ltac in_events :=
  repeat match goal with
    | H : _ ∈ [] |- _ => by apply elem_of_nil in H
    | H : _ ∈ _ :: _ |- _ => apply elem_of_cons in H as [H|H]
    | H : Embed _ _ = Embed _ _ |- _ => injection H as -> ->
    | H : Embed _ _ = Encode _ _ _ _ |- _ => discriminate H
    end.

(** X19.  [embed] never changes the object.  Token ids, and an empty list,
    go to [embed_ids] as given; texts are first encoded, with the
    [as_targets] flag of the call, and a failure to encode ends the call
    before [embed_ids] is reached.  [embed_ids] only ever receives ids,
    with the [as_targets] flag of the call, and its result or error is
    that of [embed]. *)
Theorem embed_tokenizes_texts (embed_ids : EmbedInput -> bool -> throws PyAny)
    (inputs : @EmbedInput PyAny) (as_targets : bool) m :
  final (embed C embed_ids inputs as_targets m) = m /\
  (forall given flag,
     Embed given flag ∈ events (embed C embed_ids inputs as_targets m) ->
     flag = as_targets /\ is_text_input given = false /\
     outcome (embed C embed_ids inputs as_targets m)
       = match embed_ids given flag with
         | inl what => Raise (External what)
         | inr v => Return v
         end) /\
  (is_text_input inputs = false ->
   events (embed C embed_ids inputs as_targets m) = [Embed inputs as_targets]) /\
  (is_text_input inputs = true ->
   exists t,
     inputs = EmbedText t /\
     head (events (embed C embed_ids inputs as_targets m))
       = Some (Encode (Some t) as_targets false false) /\
     forall what,
       encode C (Some t) as_targets false false = inl what ->
       embed C embed_ids inputs as_targets m
         = (Raise (External what), m, [Encode (Some t) as_targets false false])).
Proof.
  unfold embed, mbind, M_bind, emit, ext, mret, M_ret, raise.
  destruct inputs as [[s|[|x l]]|ids]; cbn [is_text_input length Nat.ltb Nat.leb];
    try (destruct (encode C _ _ _ _) as [what|batch] eqn:He; cbn);
    try (destruct (embed_ids _ _) eqn:Hi; cbn);
    (split; [done|]); (split; [|split]); try done;
    try (intros given flag Hin; in_events; by rewrite ?Hi);
    intros _; eexists; (split; [done|]); (split; [done|]); congruence.
Qed.

(** X20.  A default attributed function assigned through
    [set_attributed_fn] always resolves: after an assignment that returns,
    [get_attributed_fn] without argument returns the step function
    registered under the assigned name and leaves the object alone, and
    that function is the one [attribute] passes to the attribution method
    when the call names none.  An assignment that raises names an
    unregistered function and changes nothing. *)
Theorem set_attributed_fn_then_default (fn : string) m :
  let m' := final (setattr (set_attributed_fn C) fn m) in
  (outcome (setattr (set_attributed_fn C) fn m) = Return tt ->
   exists f,
     STEP_SCORES_MAP C !! fn = Some f /\
     get_attributed_fn C None m' = (Return f, m', []) /\
     forall a fa call,
       attributed_fn a = None ->
       PrepareAndAttribute fa call ∈ events (attribute C a m') ->
       pa_attributed_fn call = f) /\
  (forall e, outcome (setattr (set_attributed_fn C) fn m) = Raise e ->
     m' = m /\ e = unknown_function fn /\ STEP_SCORES_MAP C !! fn = None).
Proof.
  intros m'. unfold m'. clear m'.
  assert (Hrun : setattr (set_attributed_fn C) fn m =
    match STEP_SCORES_MAP C !! fn with
    | Some _ => (Return tt, set_default_attributed_fn_id fn m, [])
    | None => (Raise (unknown_function fn), m, [])
    end).
  { unfold setattr, set_attributed_fn, setter, fset.
    unfold mbind, M_bind, when, raise, modify, mret, M_ret.
    by destruct (STEP_SCORES_MAP C !! fn). }
  rewrite Hrun. destruct (STEP_SCORES_MAP C !! fn) as [f|] eqn:Hf; cbn.
  - split; [|done]. intros _. exists f. split; [done|].
    assert (Hget : get_attributed_fn C None (set_default_attributed_fn_id fn m)
                   = (Return f, set_default_attributed_fn_id fn m, [])).
    { rewrite get_attributed_fn_run. cbn. by rewrite Hf. }
    split; [done|]. intros a fa call Ha Hin.
    destruct (attribute_dispatched C a _ fa call Hin)
      as (L & _ & _ & _ & _ & _ & (_ & Hfn & _) & _ & Hpass).
    destruct Hpass as (_ & _ & _ & _ & _ & _ & _ & _ & _ & _ & -> & _).
    rewrite Ha, Hget in Hfn. cbn in Hfn. congruence.
  - split; [done|]. by intros e [= <-].
Qed.
End Setup.

Section Returns.
Context {PyAny StepFn FeatureAttribution BatchEncoding StepOutputs Attributions : Type}.
Variable C : @Collaborators PyAny StepFn FeatureAttribution BatchEncoding StepOutputs Attributions.
Local Abbreviation Model := (@AttributionModel FeatureAttribution).
Local Abbreviation event := (@event PyAny StepFn FeatureAttribution BatchEncoding).
Local Abbreviation M := (@M PyAny StepFn FeatureAttribution BatchEncoding).
Local Abbreviation Locals := (@Locals PyAny StepFn FeatureAttribution).
Local Abbreviation Output := (@FeatureAttributionOutput PyAny Attributions).
Local Abbreviation Args := (@AttributeArgs PyAny StepFn).
Implicit Types (m : Model) (l : list event) (L : Locals) (a : Args).








(** C7 (as amended).  [get_attributed_fn]: a registered key gives the
    function of the registry; an unregistered key raises the [ValueError]
    "Unknown function: <key>. Register custom functions with
    inseq.register_step_function", whatever the default of the model; a
    callable is returned as it is; [None] stands for the model's
    [default_attributed_fn_id].  [attribute] called with an unregistered
    key never returns and never dispatches, and raises that [ValueError]
    unless an earlier step fails: the input is empty, the targets do not
    pair with the inputs, the batch size is 0, no method is named and none
    is bound, or a collaborator raises. *)
Theorem get_attributed_fn_resolution m :
  (forall key,
     get_attributed_fn C (Some (FnKey key)) m =
       match STEP_SCORES_MAP C !! key with
       | Some f => (Return f, m, [])
       | None =>
           (Raise (ValueError ("Unknown function: " +:+ key +:+
              ". Register custom functions with inseq.register_step_function")),
            m, [])
       end) /\
  (forall f, get_attributed_fn C (Some (FnCallable f)) m = (Return f, m, [])) /\
  get_attributed_fn C None m
    = get_attributed_fn C (Some (FnKey (_default_attributed_fn_id m))) m /\
  (forall a key,
     attributed_fn a = Some (FnKey key) ->
     STEP_SCORES_MAP C !! key = None ->
     (exists e, outcome (attribute C a m) = Raise e) /\
     Forall (fun ev => ~ is_dispatch ev) (events (attribute C a m)) /\
     forall e, outcome (attribute C a m) = Raise e ->
       e = ValueError ("Unknown function: " +:+ key +:+
             ". Register custom functions with inseq.register_step_function") \/
       (text_truthy (input_texts a) = false /\ e = empty_input_error) \/
       (exists g, generated_texts a = Some g /\
          length (as_list g) <> length (as_list (input_texts a)) /\
          e = LengthMismatchError (length (as_list (input_texts a)))
                (length (as_list g))) \/
       (batch_size a = Some 0 /\ e = ZeroDivisionError) \/
       (opt_truthy (method a) = false /\ attribution_method m = None /\
          e = MissingAttributionMethodError) \/
       (exists what, e = External what)).
Proof.
  split; [|split; [|split]].
  - intros key. rewrite get_attributed_fn_run. cbn.
    by destruct (STEP_SCORES_MAP C !! key).
  - intros f. by rewrite get_attributed_fn_run.
  - by rewrite !get_attributed_fn_run.
  - intros a key Hfn Hkey.
    destruct (attribute_cases C a m) as
      [(e & m1 & l1 & E1 & Ea & He)|(L & m1 & l1 & l2 & E1 & Henc & HL & El & Hdis)].
    2: { destruct HL as (_ & _ & _ & _ & _ & _ & _ & _ & _ & Hreg).
         specialize (Hreg key Hfn). congruence. }
    split; [exists e; by rewrite Ea|].
    split; [by eapply attribute_no_dispatch_raised|].
    intros e' He'. rewrite Ea in He'. injection He' as <-.
    set (E := fun e : exn =>
      e = ValueError ("Unknown function: " +:+ key +:+
            ". Register custom functions with inseq.register_step_function") \/
      (text_truthy (input_texts a) = false /\ e = empty_input_error) \/
      (exists g, generated_texts a = Some g /\
         length (as_list g) <> length (as_list (input_texts a)) /\
         e = LengthMismatchError (length (as_list (input_texts a)))
               (length (as_list g))) \/
      (batch_size a = Some 0 /\ e = ZeroDivisionError) \/
      (opt_truthy (method a) = false /\ attribution_method m = None /\
         e = MissingAttributionMethodError) \/
      (exists what, e = External what)).
    set (I := fun m' : Model =>
      opt_truthy (method a) = false -> attribution_method m' = attribution_method m).
    assert (Hempty : text_truthy (input_texts a) = false -> I m /\ E empty_input_error).
    { intros Ht. split; [done|]. right. by left. }
    assert (Hdev : text_truthy (input_texts a) = true -> I (after_device_override C a m)).
    { intros _ _. unfold after_device_override. destruct (device a) as [d|]; [|done].
      by destruct (device_setter_final C d m) as [->| ->]. }
    assert (Hbind : opt_truthy (method a) = true ->
      forall fa m',
        override_default_attribution a || negb (not_None (attribution_method m')) = true ->
        I m' -> I (set_attribution_method (Some fa) m')).
    { intros Ht fa m' _ _ Hf. congruence. }
    assert (Hext : forall w, E (External w)).
    { intros w. do 5 right. by exists w. }
    assert (Hfmt : forall e',
      format_input_texts (input_texts a) (generated_texts a) = Raise e' -> E e').
    { intros e'. unfold format_input_texts.
      destruct (generated_texts a) as [g|]; [|done].
      destruct (Nat.eqb_spec (length (as_list (input_texts a))) (length (as_list g)));
        [done|]. intros [= <-]. do 2 right. left. exists g. by repeat split. }
    assert (Hzero : batch_size a = Some 0 -> E ZeroDivisionError).
    { intros Hz. do 3 right. by left. }
    assert (Hmiss : opt_truthy (method a) = false ->
      forall m', I m' -> attribution_method m' = None -> E MissingAttributionMethodError).
    { intros Hf m' Hm' Hnone. do 4 right. left. split; [done|].
      split; [|done]. by rewrite <- (Hm' Hf). }
    assert (Hunknown : forall key',
      (forall k, attributed_fn a = Some (FnKey k) -> k = key') ->
      STEP_SCORES_MAP C !! key' = None -> E (unknown_function key')).
    { intros key' Hk _. rewrite <- (Hk key Hfn). by left. }
    destruct (post_run _ _ _ _ _ _
      (attribute_resolve_kept C (fun _ => True) I E a m Hempty Hdev Hbind
         ltac:(done) ltac:(done) ltac:(done) ltac:(done) ltac:(done)
         ltac:(right; done) Hext Hfmt Hzero Hmiss Hunknown) E1) as (_ & _ & H).
    exact H.
Qed.

(** C10 (as amended).  An assignment to [default_attributed_fn_id] that
    reaches the property raises an [AttributeError] and leaves the object
    as it was: the property has no setter, the validating setter being
    bound to the name [set_attributed_fn].  That holds for every value
    [torch.nn.Module.__setattr__] hands on (every string); a value it
    registers itself is accepted without the property being consulted.
    Assigned through [set_attributed_fn], an unregistered name raises the
    [ValueError] "Unknown function: <name>. Register custom functions with
    inseq.register_step_function" and changes nothing; a registered name
    becomes the value of [_default_attributed_fn_id], the other fields
    unchanged, and is what [default_attributed_fn_id] reads from then on. *)
Theorem default_attributed_fn_id_assignment m :
  (forall (V : Type) (intercept : V -> option (throws unit)) (value : V),
     intercept value = None ->
     exists msg,
       (module_setattr intercept default_attributed_fn_id value : M unit) m
         = (Raise (AttributeError msg), m, [])) /\
  (forall (V : Type) (intercept : V -> option (throws unit)) (value : V),
     intercept value = Some (inr tt) ->
     (module_setattr intercept default_attributed_fn_id value : M unit) m
       = (Return tt, m, [])) /\
  (forall (intercept : string -> option (throws unit)) (fn : string),
     intercept fn = None ->
     STEP_SCORES_MAP C !! fn = None ->
     module_setattr intercept (set_attributed_fn C) fn m
       = (Raise (ValueError ("Unknown function: " +:+ fn +:+
            ". Register custom functions with inseq.register_step_function")),
          m, [])) /\
  (forall (intercept : string -> option (throws unit)) (fn : string),
     intercept fn = None ->
     STEP_SCORES_MAP C !! fn <> None ->
     let r := module_setattr intercept (set_attributed_fn C) fn m in
     outcome r = Return tt /\ events r = [] /\
     _default_attributed_fn_id (final r) = fn /\
     model (final r) = model m /\
     is_encoder_decoder (final r) = is_encoder_decoder m /\
     _device (final r) = _device m /\
     attribution_method (final r) = attribution_method m /\
     (fget (default_attributed_fn_id (V := string)) : M string) (final r)
       = (Return fn, final r, [])) /\
  (forall V : Type, (fget (default_attributed_fn_id (V := V)) : M string) m
     = (Return (_default_attributed_fn_id m), m, [])).
Proof.
  split; [|split; [|split; [|split]]].
  - intros V intercept value Hv. unfold module_setattr. rewrite Hv. by eexists.
  - intros V intercept value Hv. unfold module_setattr. by rewrite Hv.
  - intros intercept fn Hv Hfn. unfold module_setattr. rewrite Hv.
    unfold setattr, set_attributed_fn, setter, fset.
    unfold mbind, M_bind, when, raise, modify, mret, M_ret.
    by rewrite Hfn.
  - intros intercept fn Hv Hfn r. unfold r, module_setattr. rewrite Hv.
    unfold setattr, set_attributed_fn, setter, fset.
    unfold mbind, M_bind, when, raise, modify, mret, M_ret.
    by destruct (STEP_SCORES_MAP C !! fn).
  - done.
Qed.
End Returns.

(** ** The amended statements on concrete calls *)



(** C7, as stated, fails for [attribute]: with an unregistered key and no
    method to use, the error is the missing method's, which does not name
    the key: the method is resolved first (line 259). *)
Lemma attribute_unknown_key_other_error :
  attributed_fn Demo.cake_perplexity = Some (FnKey "perplexity") /\
  STEP_SCORES_MAP Demo.collaborators !! "perplexity" = None /\
  outcome (attribute Demo.collaborators Demo.cake_perplexity Demo.unbound)
    = Raise MissingAttributionMethodError.
Proof. vm_compute. by repeat split. Qed.

Lemma get_attributed_fn_resolution_witness :
  get_attributed_fn Demo.collaborators (Some (FnKey "perplexity")) Demo.gpt
    = (Raise (ValueError "Unknown function: perplexity. Register custom functions with inseq.register_step_function"),
       Demo.gpt, []) /\
  get_attributed_fn Demo.collaborators (Some (FnKey "entropy")) Demo.gpt
    = (Return "entropy_fn", Demo.gpt, []) /\
  outcome (attribute Demo.collaborators Demo.cake_perplexity Demo.gpt)
    = Raise (ValueError "Unknown function: perplexity. Register custom functions with inseq.register_step_function").
Proof.
  destruct (get_attributed_fn_resolution Demo.collaborators Demo.gpt) as (H1 & _ & _ & H4).
  split; [exact (H1 "perplexity")|]. split; [exact (H1 "entropy")|].
  destruct (H4 Demo.cake_perplexity "perplexity" eq_refl eq_refl) as ((e & He) & _ & Hkind).
  rewrite He.
  destruct (Hkind e He) as [->|[[H _]|[(g & Hg & Hlen & _)|[[H _]|[(_ & H & _)|(w & ->)]]]]].
  - reflexivity.
  - discriminate H.
  - injection Hg as <-. exfalso. apply Hlen. reflexivity.
  - discriminate H.
  - discriminate H.
  - exfalso. vm_compute in He. discriminate He.
Defined.

(** C10, as stated, fails: [torch.nn.Module.__setattr__] registers a
    sub-module assigned to [default_attributed_fn_id] without raising; the
    property still reads the stored name. *)
Lemma default_attributed_fn_id_accepts_module :
  (module_setattr Demo.nn_module_setattr default_attributed_fn_id Demo.SubModule
     : Demo.gpt_method unit) Demo.gpt
    = (Return tt, Demo.gpt, []).
Proof. reflexivity. Qed.

Lemma default_attributed_fn_id_assignment_witness :
  (exists msg,
     (module_setattr Demo.nn_module_setattr default_attributed_fn_id (Demo.Str "entropy")
        : Demo.gpt_method unit) Demo.gpt
       = (Raise (AttributeError msg), Demo.gpt, [])) /\
  _default_attributed_fn_id
    (final (module_setattr (fun _ => None) (set_attributed_fn Demo.collaborators)
              "entropy" Demo.gpt))
    = "entropy" /\
  module_setattr (fun _ => None) (set_attributed_fn Demo.collaborators) "perplexity" Demo.gpt
    = (Raise (ValueError "Unknown function: perplexity. Register custom functions with inseq.register_step_function"),
       Demo.gpt, []).
Proof.
  destruct (default_attributed_fn_id_assignment Demo.collaborators Demo.gpt)
    as (H1 & _ & H3 & H4 & _).
  split; [exact (H1 Demo.value Demo.nn_module_setattr (Demo.Str "entropy") eq_refl)|].
  split.
  - destruct (H4 (fun _ => None) "entropy" eq_refl) as (_ & _ & H & _);
      [vm_compute; discriminate|exact H].
  - exact (H3 (fun _ => None) "perplexity" eq_refl eq_refl).
Defined.

(** ** Further statements on concrete calls *)

Lemma attribute_without_device_witness :
  device Demo.cake = None /\
  _device (final (attribute Demo.collaborators Demo.cake Demo.gpt)) = Some "cuda".
Proof.
  split; [reflexivity|].
  exact (proj1 (attribute_without_device Demo.collaborators Demo.cake Demo.gpt eq_refl)).
Defined.

Lemma attribute_keeps_bound_method_witness :
  method Demo.cake_saliency_on_cpu = Some "saliency" /\
  attribution_method
    (final (attribute Demo.collaborators Demo.cake_saliency_on_cpu Demo.gpt))
    = Some "integrated_gradients".
Proof.
  split; [reflexivity|].
  apply (proj1 (attribute_keeps_bound_method Demo.collaborators
                  Demo.cake_saliency_on_cpu Demo.gpt)).
  right. split; [reflexivity|discriminate].
Defined.

Lemma n_batches_ceiling_witness :
  n_batches 5 2 = 3 /\ (n_batches 5 2 - 1) * 2 < 5 <= n_batches 5 2 * 2.
Proof.
  split; [reflexivity|]. apply n_batches_ceiling; lia.
Defined.


Lemma attribute_failure_keeps_override_witness :
  _device Demo.unbound = Some "cuda" /\
  outcome (attribute Demo.collaborators Demo.cake_on_cpu Demo.unbound)
    = Raise MissingAttributionMethodError /\
  _device (final (attribute Demo.collaborators Demo.cake_on_cpu Demo.unbound)) = Some "cpu".
Proof.
  split; [reflexivity|]. split; [vm_compute; reflexivity|].
  apply (attribute_failure_keeps_override Demo.collaborators Demo.cake_on_cpu Demo.unbound
           "cpu" MissingAttributionMethodError).
  - reflexivity.
  - reflexivity.
  - vm_compute. reflexivity.
  - vm_compute. reflexivity.
  - discriminate.
Defined.

Lemma attribute_zero_batch_size_witness :
  batch_size Demo.cake_zero_batch = Some 0 /\
  outcome (attribute Demo.collaborators Demo.cake_zero_batch Demo.gpt)
    = Raise ZeroDivisionError.
Proof.
  split; [reflexivity|].
  apply (attribute_zero_batch_size Demo.collaborators Demo.cake_zero_batch Demo.gpt).
  - reflexivity.
  - exact I.
  - intros g [= <-]. reflexivity.
  - reflexivity.
Defined.

Lemma all_startswith_IndexError_witness :
  all_startswith (Texts ["how much is it"]) 0 ["how much"; "how many"] = Raise IndexError.
Proof.
  apply all_startswith_IndexError. exists 1%nat.
  split; [simpl; lia|]. split; [reflexivity|].
  intros [|j] x Hj Hx; [|lia].
  injection Hx as <-. exists "how much is it". split; reflexivity.
Defined.

Lemma attribute_generated_metadata_witness :
  exists out,
    outcome (attribute Demo.collaborators Demo.cake_generated Demo.gpt) = Return out /\
    info out !! "constrained_decoding" = Some (InfoBool false) /\
    info out !! "input_texts" = Some (InfoTexts ["how much is the cake?"]).
Proof.
  eexists. split; [vm_compute; reflexivity|].
  edestruct (attribute_generated_metadata Demo.collaborators Demo.cake_generated Demo.gpt)
    as (H1 & H2 & _); [reflexivity|vm_compute; reflexivity|].
  split; [exact H1|exact H2].
Defined.

Lemma attribute_prefix_generation_witness :
  exists out,
    outcome (attribute Demo.collaborators Demo.cake_from_prefix Demo.marian) = Return out /\
    info out !! "generate_from_target_prefix" = Some (InfoBool true) /\
    info out !! "generation_args" = Some (InfoArgs (<["decoder_input_ids" := 0]> ∅)).
Proof.
  eexists. split; [vm_compute; reflexivity|].
  edestruct (attribute_prefix_generation Demo.collaborators Demo.cake_from_prefix
               Demo.marian (Text "350"))
    as (_ & H2 & enc & dec & gen & _ & _ & _ & _ & H5);
    [reflexivity|reflexivity|reflexivity|vm_compute; reflexivity|].
  split; [exact H2|exact H5].
Defined.

(** The dispatch of the two-example call and of the cake call. *)
Lemma two_examples_dispatch :
  exists call,
    PrepareAndAttribute "integrated_gradients" call
      ∈ events (attribute Demo.collaborators Demo.two_examples Demo.gpt).
Proof.
  vm_compute. eexists.
  repeat first [apply list_elem_of_here | apply list_elem_of_further].
Defined.

Lemma cake_dispatch :
  exists call,
    PrepareAndAttribute "integrated_gradients" call
      ∈ events (attribute Demo.collaborators Demo.cake Demo.gpt).
Proof.
  vm_compute. eexists.
  repeat first [apply list_elem_of_here | apply list_elem_of_further].
Defined.

Lemma attribute_dispatch_arguments_witness :
  exists call,
    PrepareAndAttribute "integrated_gradients" call
      ∈ events (attribute Demo.collaborators Demo.two_examples Demo.gpt) /\
    pa_input_texts call = ["how much"; "how many"] /\
    pa_attribute_target call = false /\
    pa_attributed_fn call = "probability_fn".
Proof.
  destruct two_examples_dispatch as [call Hin]. exists call.
  destruct (attribute_dispatch_arguments Demo.collaborators Demo.two_examples Demo.gpt
              _ call Hin) as (H1 & _ & _ & _ & _ & _ & _ & _ & H9 & H10 & _).
  split; [exact Hin|]. split; [exact H1|]. split; [exact H9|].
  vm_compute in H10. injection H10 as H10. symmetry. exact H10.
Defined.

Lemma attribute_dispatches_once_witness :
  exists call before later,
    events (attribute Demo.collaborators Demo.two_examples Demo.gpt)
      = before ++ PrepareAndAttribute "integrated_gradients" call :: later /\
    Forall (fun ev => ~ is_dispatch ev) before /\
    Forall is_quiet later.
Proof.
  destruct two_examples_dispatch as [call Hin]. exists call.
  exact (attribute_dispatches_once Demo.collaborators Demo.two_examples Demo.gpt
           _ call Hin).
Defined.

Lemma attribute_dispatch_requires_prefix_witness :
  exists call,
    PrepareAndAttribute "integrated_gradients" call
      ∈ events (attribute Demo.collaborators Demo.cake Demo.gpt) /\
    pa_generated_texts call = Texts ["how much is the cake? 350 rubles"].
Proof.
  destruct cake_dispatch as [call Hin]. exists call.
  destruct (attribute_dispatch_requires_prefix Demo.collaborators Demo.cake Demo.gpt
              Demo.cake_target _ call eq_refl eq_refl Hin) as (H1 & _).
  split; [exact Hin|exact H1].
Defined.

Lemma device_setter_validates_first_witness :
  setattr (device_property Demo.collaborators) "tpu" Demo.gpt
    = (Raise (External "Unknown device"), Demo.gpt, []) /\
  _device (final (setattr (device_property Demo.collaborators) "cpu" Demo.gpt))
    = Some "cpu".
Proof.
  split.
  - apply (proj1 (device_setter_validates_first Demo.collaborators "tpu" Demo.gpt)).
    reflexivity.
  - apply (proj1 (proj2 (device_setter_validates_first Demo.collaborators "cpu"
                           Demo.gpt))).
    reflexivity.
Defined.



Lemma setup_binds_method_witness :
  attribution_method
    (final (setup Demo.collaborators "cpu" None (Some "saliency") false Demo.fresh))
    = Some "saliency" /\
  outcome (attribute Demo.collaborators Demo.cake
             (final (setup Demo.collaborators "cpu" None (Some "saliency") false
                       Demo.fresh)))
    <> Raise MissingAttributionMethodError.
Proof.
  destruct (setup_binds_method Demo.collaborators "cpu" None (Some "saliency") false
              Demo.fresh) as (_ & _ & fa & Hb & Hl & Hall);
    [reflexivity|vm_compute; reflexivity|].
  vm_compute in Hl. injection Hl as <-.
  split; [exact Hb|exact (proj1 (Hall Demo.cake))].
Defined.

Lemma setup_after_init_without_model_witness :
  attribution_method
    (final (setup Demo.collaborators "cpu" (Some "cuda") (Some "saliency") false
              (__init__ None)))
    = None /\
  exists e,
    outcome (attribute Demo.collaborators Demo.cake
               (final (setup Demo.collaborators "cpu" (Some "cuda") (Some "saliency")
                         false (__init__ None))))
      = Raise e.
Proof.
  destruct (setup_after_init_without_model Demo.collaborators "cpu" (Some "cuda")
              (Some "saliency") false None) as (_ & _ & Hb & _ & Hall);
    [reflexivity|reflexivity|].
  split; [exact Hb|apply Hall; reflexivity].
Defined.

Lemma embed_tokenizes_texts_witness :
  exists t,
    (EmbedText Demo.cake_input : @EmbedInput Z) = EmbedText t /\
    head (events (embed Demo.collaborators Demo.embed_ids (EmbedText Demo.cake_input)
                    false Demo.gpt))
      = Some (Encode (Some t) false false false).
Proof.
  destruct (embed_tokenizes_texts Demo.collaborators Demo.embed_ids
              (EmbedText Demo.cake_input) false Demo.gpt) as (_ & _ & _ & H).
  destruct (H eq_refl) as (t & H1 & H2 & _).
  exists t. split; [exact H1|exact H2].
Defined.

Lemma set_attributed_fn_then_default_witness :
  outcome (get_attributed_fn Demo.collaborators None
             (final (setattr (set_attributed_fn Demo.collaborators) "entropy" Demo.gpt)))
    = Return "entropy_fn".
Proof.
  destruct (set_attributed_fn_then_default Demo.collaborators "entropy" Demo.gpt)
    as [H _].
  destruct H as (f & Hf & Hget & _); [vm_compute; reflexivity|].
  vm_compute in Hf. injection Hf as <-.
  rewrite Hget. reflexivity.
Defined.
